(** * sharepoint.py: a shallow embedding of the SharePoint upload script

    The script talks to the Microsoft Graph API through the [requests]
    library and reads one local file.  Strings are [string], the decoded
    JSON bodies are a small inductive type, and the outside world (HTTP
    transport and file system) is an abstract state with oracle
    operations, so that every transport outcome can be quantified over.
    Python exceptions are explicit: a call either returns a value or
    raises one of the exception kinds the script can meet.  A [print]
    hands its text to the standard output of the world, which takes it
    or refuses it; a refused text makes [print] raise, inside a [try]
    as well as in a handler.  The trace of a run lists its requests and
    file accesses.  The statements at module level, which read the
    environment and call [get_access_token] and [create_folder] once,
    are [run_module]. *)

From Stdlib Require Import String Ascii List ZArith Bool Lia.
Import ListNotations.

Local Open Scope string_scope.
Local Open Scope Z_scope.

(** ** Python string primitives *)

Module PyStr.

(** [sub in s] *)
Fixpoint contains (sub s : string) : bool :=
  match s with
  | EmptyString => prefix sub EmptyString
  | String _ s' => prefix sub s || contains sub s'
  end.

(** [s.replace(old, new)]: every non-overlapping occurrence of [old],
    found left to right, is replaced by [new].  [skip] counts the
    characters of a matched occurrence that are still to be dropped.  An
    empty [old] matches before every character and at the end. *)
Fixpoint replace_from (old new : string) (skip : nat) (s : string) : string :=
  match skip with
  | S k =>
      match s with
      | EmptyString => EmptyString
      | String _ s' => replace_from old new k s'
      end
  | O =>
      match s with
      | EmptyString => if prefix old EmptyString then new else EmptyString
      | String c s' =>
          if prefix old s then
            new ++ match String.length old with
                   | O => String c (replace_from old new 0 s')
                   | S k => replace_from old new k s'
                   end
          else String c (replace_from old new 0 s')
      end
  end.

Definition replace (old new s : string) : string := replace_from old new 0 s.

(** [s.rsplit(sep, 1)] for a one-character separator: the string is cut at
    the last separator; without one the result is the one-element list. *)
Fixpoint rsplit1 (sep : ascii) (s : string) : list string :=
  match s with
  | EmptyString => [EmptyString]
  | String c s' =>
      match rsplit1 sep s' with
      | [b; e] => [String c b; e]
      | _ => if Ascii.eqb c sep then [EmptyString; s'] else [String c s']
      end
  end.

End PyStr.

(** ** get_network_link *)

Definition sharepoint_prefix : string :=
  "https://nbcrna.sharepoint.com/sites/HistoricalTranscripts/Shared%20Documents/".

Definition network_prefix : string := "\\nbcrna-file1\transcripts$\".

Definition get_network_link (sharepoint_link : string) : string :=
  let relative_path :=
    PyStr.replace "%20" " " (PyStr.replace sharepoint_prefix EmptyString sharepoint_link) in
  let file_path := PyStr.replace "/" "\" relative_path in
  let network_path := network_prefix ++ file_path in
  network_path.

(** The two later replacements of [get_network_link], from any point of
    the scan. *)
Abbreviation decode k s := (PyStr.replace_from "%20" " " k s).

Abbreviation backslashed s := (PyStr.replace_from "/" "\" 0 s).

(** ** Python values, exceptions and results *)

(** A decoded JSON document, as [json.loads] builds it.  An object is kept
    as its list of members and read at the first member with the key;
    [None] is [JNull]. *)
#[warning="-register-all"]
Inductive json : Type :=
| JNull
| JBool (b : bool)
| JNum (n : Z)
| JStr (s : string)
| JArr (items : list json)
| JObj (members : list (string * json)).

(** The exception classes the script can meet; all derive from
    [Exception].  [StdoutError] is what [print] raises when the standard
    output does not take the text (a [UnicodeEncodeError] for a text the
    stream cannot encode, an [OSError] of the stream). *)
Inductive exn : Type :=
| ValueError
| KeyError
| IndexError
| TypeError
| AttributeError
| UnboundLocalError
| OSError
| RequestException
| HTTPError
| JSONDecodeError
| StdoutError.

Inductive result (A : Type) : Type :=
| Return (a : A)
| Raise (e : exn).
Arguments Return {A} a.
Arguments Raise {A} e.

Fixpoint assoc (k : string) (d : list (string * json)) : option json :=
  match d with
  | [] => None
  | (k', v) :: d' => if String.eqb k k' then Some v else assoc k d'
  end.

(** [x.get(key)]: only a dict has the method. *)
Definition py_get (x : json) (key : string) : result json :=
  match x with
  | JObj d => Return (match assoc key d with Some v => v | None => JNull end)
  | _ => Raise AttributeError
  end.

(** [x[key]] for a string key. *)
Definition py_item (x : json) (key : string) : result json :=
  match x with
  | JObj d => match assoc key d with Some v => Return v | None => Raise KeyError end
  | _ => Raise TypeError
  end.

(** [x[0]]: a list or a string is indexed, a dict is looked up at the key
    [0] (never present, the keys of a decoded object are strings). *)
Definition py_first (x : json) : result json :=
  match x with
  | JArr (v :: _) => Return v
  | JArr [] => Raise IndexError
  | JStr (String c _) => Return (JStr (String c EmptyString))
  | JStr EmptyString => Raise IndexError
  | JObj _ => Raise KeyError
  | _ => Raise TypeError
  end.

(** ** The outside world *)

Inductive method : Type := GET | POST | PUT.

Inductive payload : Type :=
| NoBody
| FormBody (fields : list (string * string))
| JsonBody (doc : json)
| RawBody (content : string).

Record request : Type := mkRequest {
  req_method : method;
  req_url : string;
  req_headers : list (string * string);
  req_body : payload
}.

(** What the script reads of a [requests.Response]: the status code and
    the body as [response.json()] decodes it ([None] when it is not
    JSON). *)
Record response : Type := mkResponse {
  status_code : Z;
  body_json : option json
}.

(** A request either yields a response or [requests] raises (no
    connection, timeout, ...). *)
Inductive outcome : Type :=
| Responded (r : response)
| TransportFailure.

Inductive event : Type :=
| EvHttp (rq : request) (o : outcome)
| EvRead (path : string) (content : option string)
| EvWrite (path : string) (doc : json) (ok : bool).

Definition trace : Type := list event.

(** What a [print] of the script is given: a fixed text, a value, a
    label followed by a value, or an f-string made of a label and of the
    text of the exception caught. *)
Inductive printed : Type :=
| PrText (s : string)
| PrValue (v : json)
| PrLabelled (label : string) (v : json)
| PrFailure (label : string) (e : exn).

(** The world answers requests and file accesses, takes or refuses what
    is printed, and moves to its next state; nothing is assumed about
    how. *)
Class Transport (World : Type) : Type := {
  send : request -> World -> outcome * World;
  read_binary : string -> World -> option string * World;
  dump_json : string -> json -> World -> bool * World;
  print_text : printed -> World -> bool * World
}.

Definition is_probe (e : event) : bool :=
  match e with
  | EvHttp rq _ => match req_method rq with GET => true | _ => false end
  | _ => false
  end.

Definition is_upload (e : event) : bool :=
  match e with
  | EvHttp rq _ => match req_method rq with PUT => true | _ => false end
  | _ => false
  end.

Definition answered_with (code : Z) (e : event) : bool :=
  match e with
  | EvHttp _ (Responded r) => status_code r =? code
  | _ => false
  end.

(** [response.raise_for_status()] of [requests]: an [HTTPError] for the
    client and server error classes, nothing otherwise. *)
Definition raise_for_status (r : response) : result unit :=
  if (400 <=? status_code r) && (status_code r <? 600)
  then Raise HTTPError else Return tt.

(** [response.json()] *)
Definition response_json (r : response) : result json :=
  match body_json r with
  | Some j => Return j
  | None => Raise JSONDecodeError
  end.

(** ** The script monad: world state, trace of effects, exceptions *)

Definition script (World A : Type) : Type := World -> result A * World * trace.

Section Script.

Context {World : Type}.

Local Abbreviation M := (script World).

Definition ret {A} (a : A) : M A := fun w => (Return a, w, []).

Definition throw {A} (e : exn) : M A := fun w => (Raise e, w, []).

Definition lift {A} (r : result A) : M A := fun w => (r, w, []).

Definition bind {A B} (m : M A) (k : A -> M B) : M B :=
  fun w =>
    match m w with
    | (Return a, w1, t1) =>
        match k a w1 with
        | (r, w2, t2) => (r, w2, (t1 ++ t2)%list)
        end
    | (Raise e, w1, t1) => (Raise e, w1, t1)
    end.

(** [try: m  except Exception as e: handler] *)
Definition try_except {A} (m : M A) (handler : exn -> M A) : M A :=
  fun w =>
    match m w with
    | (Return a, w1, t1) => (Return a, w1, t1)
    | (Raise e, w1, t1) =>
        match handler e w1 with
        | (r, w2, t2) => (r, w2, (t1 ++ t2)%list)
        end
    end.

End Script.

Declare Scope script_scope.
Delimit Scope script_scope with script.
Notation "x <- m ;; k" := (bind m (fun x => k))
  (at level 61, m at next level, right associativity) : script_scope.
Notation "m ;;; k" := (bind m (fun _ => k))
  (at level 61, right associativity) : script_scope.

(** ** The remote-call components *)

Section Components.

Context {World : Type} `{Transport World}.

Local Abbreviation M := (script World).
Local Open Scope script_scope.

(** [requests.get/post/put(...)]: the request is sent; a transport failure
    surfaces as an exception of [requests]. *)
Definition http (rq : request) : M response :=
  fun w =>
    match send rq w with
    | (Responded r, w') => (Return r, w', [EvHttp rq (Responded r)])
    | (TransportFailure, w') => (Raise RequestException, w', [EvHttp rq TransportFailure])
    end.

(** [with open(path, "rb") as f: f.read()] *)
Definition open_rb (path : string) : M string :=
  fun w =>
    match read_binary path w with
    | (Some content, w') => (Return content, w', [EvRead path (Some content)])
    | (None, w') => (Raise OSError, w', [EvRead path None])
    end.

(** [with open(path, 'w') as file: json.dump(data, file, indent=4)] *)
Definition json_dump (path : string) (data : json) : M unit :=
  fun w =>
    match dump_json path data w with
    | (true, w') => (Return tt, w', [EvWrite path data true])
    | (false, w') => (Raise OSError, w', [EvWrite path data false])
    end.

(** [print(...)]: the text goes to the standard output, which may refuse
    it. *)
Definition py_print (text : printed) : M unit :=
  fun w =>
    match print_text text w with
    | (true, w') => (Return tt, w', [])
    | (false, w') => (Raise StdoutError, w', [])
    end.

(** The standard output takes the text, or refuses it, whatever the state
    of the world. *)
Definition stdout_takes (text : printed) : Prop :=
  forall w : World, fst (print_text text w) = true.

Definition stdout_refuses (text : printed) : Prop :=
  forall w : World, fst (print_text text w) = false.

(** The two ends of a handler that prints [label] followed by the text of
    the exception and then returns [sentinel]: the sentinel, or the
    exception of the [print].  The first is met when the standard output
    takes the message, the second when it refuses it. *)
Definition falls_back {A} (label : string) (sentinel : A) (v : result A) : Prop :=
  (v = Return sentinel \/ v = Raise StdoutError) /\
  ((forall e, stdout_takes (PrFailure label e)) -> v = Return sentinel) /\
  ((forall e, stdout_refuses (PrFailure label e)) -> v = Raise StdoutError).

(** [try: x = first; rest  except Exception: handler], where the handler
    reads the local [x]: it is unbound when [first] itself raised. *)
Definition try_binding {L A} (first : M L) (rest : L -> M A)
    (handler : option L -> exn -> M A) : M A :=
  fun w =>
    match first w with
    | (Raise e, w1, t1) =>
        match handler None e w1 with
        | (r, w2, t2) => (r, w2, (t1 ++ t2)%list)
        end
    | (Return x, w1, t1) =>
        match try_except (rest x) (handler (Some x)) w1 with
        | (r, w2, t2) => (r, w2, (t1 ++ t2)%list)
        end
    end.

Definition bearer (access_token : string) : string * string :=
  ("Authorization", "Bearer " ++ access_token).

Definition get_access_token (tenant_id client_id client_secret : string) : M json :=
  let token_url :=
    "https://login.microsoftonline.com/" ++ tenant_id ++ "/oauth2/v2.0/token" in
  let token_data :=
    [("client_id", client_id);
     ("client_secret", client_secret);
     ("scope", "https://graph.microsoft.com/.default");
     ("grant_type", "client_credentials")] in
  try_except
    (response <- http (mkRequest POST token_url [] (FormBody token_data));;
     lift (raise_for_status response);;;
     x <- lift (response_json response);;
     lift (py_get x "access_token"))
    (fun e =>
       py_print (PrFailure "Failed to obtain access token: " e);;;
       ret JNull).

Definition get_site_id (access_token site_url : string) : M json :=
  try_except
    (let headers := [bearer access_token] in
     response <- http (mkRequest GET site_url headers NoBody);;
     lift (raise_for_status response);;;
     x <- lift (response_json response);;
     lift (py_get x "id"))
    (fun e =>
       py_print (PrFailure "Failed to retrieve site ID: " e);;;
       ret JNull).

Definition get_shared_documents_drive_id (access_token drive_url : string) : M json :=
  try_except
    (let headers := [bearer access_token] in
     response <- http (mkRequest GET drive_url headers NoBody);;
     x <- lift (response_json response);;
     py_print (PrValue x);;;
     lift (raise_for_status response);;;
     drives <- lift (py_item x "value");;
     first <- lift (py_first drives);;
     lift (py_item first "id"))
    (fun e =>
       py_print (PrFailure "Failed to retrieve Shared Documents drive ID: " e);;;
       ret JNull).

Definition list_folders_in_drive (access_token folders_url : string) : M unit :=
  try_except
    (let headers := [bearer access_token] in
     response <- http (mkRequest GET folders_url headers NoBody);;
     lift (raise_for_status response);;;
     x <- lift (response_json response);;
     data <- lift (py_item x "value");;
     json_dump "folders_data_value.json" data;;;
     py_print (PrText "Folder data saved to folders_data_value.json"))
    (fun e => py_print (PrFailure "Failed to list folders: " e)).

Definition create_folder (access_token drive_id folder_name : string) : M json :=
  let headers :=
    [bearer access_token; ("Content-Type", "application/json")] in
  let create_folder_url :=
    "https://graph.microsoft.com/v1.0/drives/" ++ drive_id ++ "/root/children" in
  let folder_data :=
    JObj [("name", JStr folder_name);
          ("folder", JObj []);
          ("@microsoft.graph.conflictBehavior", JStr "rename")] in
  try_except
    (create_response <- http (mkRequest POST create_folder_url headers (JsonBody folder_data));;
     lift (raise_for_status create_response);;;
     created_folder <- lift (response_json create_response);;
     lift (py_get created_folder "webUrl"))
    (fun e =>
       py_print (PrFailure "Failed to create folder: " e);;;
       ret JNull).

(** *** upload_pdf *)

Definition check_url (drive_id folder_name pdf_file_name : string) : string :=
  "https://graph.microsoft.com/v1.0/drives/" ++ drive_id ++ "/root:/"
    ++ folder_name ++ "/" ++ pdf_file_name.

Definition upload_url (drive_id folder_name pdf_file_name : string) : string :=
  "https://graph.microsoft.com/v1.0/drives/" ++ drive_id ++ "/root:/"
    ++ folder_name ++ "/" ++ pdf_file_name ++ ":/content".

(** How one pass through the body of [while file_exists:] ends: with a
    [return] of the function, or with the new value of [file_exists]. *)
Inductive pass : Type :=
| Returns (v : json * bool)
| Continues (file_exists : bool).

Definition probe_pass (access_token drive_id folder_name pdf_file_name : string) : M pass :=
  response <- http (mkRequest GET (check_url drive_id folder_name pdf_file_name)
                      [bearer access_token; ("Content-Type", "application/json")]
                      NoBody);;
  if status_code response =? 200 then
    x <- lift (response_json response);;
    file_url <- lift (py_get x "webUrl");;
    py_print (PrLabelled "File already exists: " file_url);;;
    ret (Returns (file_url, false))
  else if status_code response =? 401 then
    ret (Returns (JNull, true))
  else
    ret (Continues false).

(** [while file_exists: body].  The loop is unrolled at most [fuel] times;
    [None] stands for a loop still running when the fuel is spent.  The
    result is the [return] value met in the body, if any. *)
Fixpoint while_file_exists (fuel : nat) (body : M pass) (file_exists : bool)
    (w : World) : option (result (option (json * bool)) * World * trace) :=
  if file_exists then
    match fuel with
    | O => None
    | S fuel' =>
        match body w with
        | (Raise e, w1, t1) => Some (Raise e, w1, t1)
        | (Return (Returns v), w1, t1) => Some (Return (Some v), w1, t1)
        | (Return (Continues fe), w1, t1) =>
            match while_file_exists fuel' body fe w1 with
            | Some (r, w2, t2) => Some (r, w2, (t1 ++ t2)%list)
            | None => None
            end
        end
    end
  else Some (Return None, w, []).

(** The [try] block after the loop and its handler. *)
Definition upload_step (headers : list (string * string))
    (url pdf_file_path : string) : M (json * bool) :=
  try_binding
    (file_content <- open_rb pdf_file_path;;
     http (mkRequest PUT url headers (RawBody file_content)))
    (fun upload_response =>
       lift (raise_for_status upload_response);;;
       created_file <- lift (response_json upload_response);;
       printed_url <- lift (py_get created_file "webUrl");;
       py_print (PrValue printed_url);;;
       file_url <- lift (py_get created_file "webUrl");;
       ret (file_url, false))
    (fun upload_response e =>
       match upload_response with
       | None => throw UnboundLocalError
       | Some r =>
           if status_code r =? 401 then ret (JNull, true)
           else
             py_print (PrFailure "Failed to upload PDF file: " e);;;
             ret (JNull, false)
       end).

Definition upload_pdf (fuel : nat)
    (access_token drive_id folder_name pdf_file_name pdf_file_path : string)
    (w : World) : option (result (json * bool) * World * trace) :=
  let headers :=
    [bearer access_token; ("Content-Type", "application/pdf")] in
  match PyStr.rsplit1 "." pdf_file_name with
  | [base_filename; file_extension] =>
      match while_file_exists fuel
              (probe_pass access_token drive_id folder_name pdf_file_name)
              true w with
      | None => None
      | Some (Raise e, w1, t1) => Some (Raise e, w1, t1)
      | Some (Return (Some v), w1, t1) => Some (Return v, w1, t1)
      | Some (Return None, w1, t1) =>
          match upload_step headers
                  (upload_url drive_id folder_name pdf_file_name)
                  pdf_file_path w1 with
          | (r, w2, t2) => Some (r, w2, (t1 ++ t2)%list)
          end
      end
  | _ => Some (Raise ValueError, w, [])
  end.

(** *** The module body

    The script ends with the statements that run on import: the
    credentials and the drive id are read from the environment, a token is
    fetched and the folder [TestingAptify2] is created.  [os.getenv] gives
    [None] for an unset variable; [tenant_id], [drive_id] and the token are
    only ever inserted into f-strings, so they are passed on as the text an
    f-string makes of them.  [client_id] and [client_secret] go into the form
    data: they are taken as set (a string each).  [site_url] and
    [folders_url] are built and not used. *)

(** [str(v)], as an f-string inserts a value: a string is itself and
    [None] is [None]; the text of a number or of a container is left to
    [other]. *)
Definition py_str (other : json -> string) (v : json) : string :=
  match v with
  | JStr s => s
  | JNull => "None"
  | JBool true => "True"
  | JBool false => "False"
  | _ => other v
  end.

Definition env_str (v : option string) : string :=
  match v with
  | Some s => s
  | None => "None"
  end.

Definition run_module (other : json -> string)
    (client_id client_secret : string) (tenant_id drive_id : option string)
    : M unit :=
  let site_path := "/sites/AptifyAttachment" in
  let base_url := "https://graph.microsoft.com/v1.0" in
  let site_url := base_url ++ "/sites/nbcrna.sharepoint.com:" ++ site_path in
  access_token <- get_access_token (env_str tenant_id) client_id client_secret;;
  let did := drive_id in
  let folders_url := base_url ++ "/drives/" ++ env_str did ++ "/root/children" in
  _ <- create_folder (py_str other access_token) (env_str did) "TestingAptify2";;
  ret tt.

End Components.

(** ** A scripted world

    The replies to the successive requests are fixed in advance; the file
    system is a table from paths to contents; the standard output takes
    every text. *)

Record Scripted : Type := mkScripted {
  replies : list outcome;
  files : list (string * string)
}.

Fixpoint file_at (path : string) (fs : list (string * string)) : option string :=
  match fs with
  | [] => None
  | (p, c) :: fs' => if String.eqb path p then Some c else file_at path fs'
  end.

#[export] Instance Scripted_Transport : Transport Scripted := {
  send _ w :=
    match replies w with
    | [] => (TransportFailure, w)
    | o :: rest => (o, mkScripted rest (files w))
    end;
  read_binary path w := (file_at path (files w), w);
  dump_json _ _ w := (true, w);
  print_text _ w := (true, w)
}.

(** A scripted world behind a standard output that takes the texts
    [takes] accepts and refuses the others. *)
Record Console (takes : printed -> bool) : Type := mkConsole {
  console_world : Scripted
}.
Arguments console_world {takes} c.

Definition on_console {takes : printed -> bool} {A} (step : A * Scripted)
    : A * Console takes :=
  (fst step, mkConsole takes (snd step)).

#[export] Instance Console_Transport (takes : printed -> bool)
    : Transport (Console takes) := {
  send rq c := on_console (send rq (console_world c));
  read_binary path c := on_console (read_binary path (console_world c));
  dump_json path doc c := on_console (dump_json path doc (console_world c));
  print_text text c := (takes text, c)
}.

(** Standard outputs for the sample runs: one that refuses every text,
    one that refuses the values and takes the messages. *)
Definition takes_nothing (text : printed) : bool := false.

Definition takes_messages (text : printed) : bool :=
  match text with
  | PrValue _ | PrLabelled _ _ => false
  | PrText _ | PrFailure _ _ => true
  end.

Definition reply (code : Z) (body : option json) : outcome :=
  Responded (mkResponse code body).

(** Observations on a bounded run. *)
Definition trace_of {World A} (run : option (result A * World * trace)) : trace :=
  match run with
  | Some (_, _, t) => t
  | None => []
  end.

Definition result_of {World A} (run : option (result A * World * trace))
    : option (result A) :=
  match run with
  | Some (r, _, _) => Some r
  | None => None
  end.

Definition value_of {World A} (run : result A * World * trace) : result A :=
  fst (fst run).

Definition events_of {World A} (run : result A * World * trace) : trace :=
  snd run.

(** Sample worlds. *)
Definition world_file_exists : Scripted :=
  mkScripted [reply 200 (Some (JObj [("webUrl", JStr "https://sp/Test2/a.pdf")]))] [].

Definition world_token_expired : Scripted :=
  mkScripted [reply 404 None; reply 401 None] [("C:/out/a.pdf", "%PDF")].

Definition world_upload_ok : Scripted :=
  mkScripted [reply 404 None;
              reply 201 (Some (JObj [("webUrl", JStr "https://sp/Test2/a.pdf")]))]
             [("C:/out/a.pdf", "%PDF")].

Definition world_file_missing : Scripted :=
  mkScripted [reply 404 None] [].

Definition world_folder_created : Scripted :=
  mkScripted [reply 201 (Some (JObj [("webUrl", JStr "https://sp/TestingAptify2")]))] [].

Definition world_folder_multiple_choices : Scripted :=
  mkScripted [reply 300 (Some (JObj [("webUrl", JStr "https://sp/TestingAptify2")]))] [].

Definition world_one_drive : Scripted :=
  mkScripted
    [reply 200 (Some (JObj [("value", JArr [JObj [("id", JStr "b!drive1")];
                                            JObj [("id", JStr "b!drive2")]])]))] [].

(** The requests of the sample calls. *)
Definition sample_probe : request :=
  mkRequest GET (check_url "drive" "Test2" "a.pdf")
    [bearer "token"; ("Content-Type", "application/json")] NoBody.

Definition sample_put : request :=
  mkRequest PUT (upload_url "drive" "Test2" "a.pdf")
    [bearer "token"; ("Content-Type", "application/pdf")] (RawBody "%PDF").

Definition sample_create : request :=
  mkRequest POST "https://graph.microsoft.com/v1.0/drives/drive/root/children"
    [bearer "token"; ("Content-Type", "application/json")]
    (JsonBody (JObj [("name", JStr "TestingAptify2");
                     ("folder", JObj []);
                     ("@microsoft.graph.conflictBehavior", JStr "rename")])).

Definition sample_drives : request :=
  mkRequest GET "https://graph.microsoft.com/v1.0/sites/site/drives"
    [bearer "token"] NoBody.

Definition sample_token : request :=
  mkRequest POST "https://login.microsoftonline.com/tenant/oauth2/v2.0/token" []
    (FormBody [("client_id", "client");
               ("client_secret", "secret");
               ("scope", "https://graph.microsoft.com/.default");
               ("grant_type", "client_credentials")]).

Definition sample_site : request :=
  mkRequest GET
    "https://graph.microsoft.com/v1.0/sites/nbcrna.sharepoint.com:/sites/AptifyAttachment"
    [bearer "token"] NoBody.

Definition sample_folders : request :=
  mkRequest GET "https://graph.microsoft.com/v1.0/drives/drive/root/children"
    [bearer "token"] NoBody.

(** More sample worlds. *)
Definition world_answers (code : Z) (body : option json) : Scripted :=
  mkScripted [reply code body] [].

Definition world_offline : Scripted := mkScripted [TransportFailure] [].

Definition world_upload_answers (code : Z) (body : option json) : Scripted :=
  mkScripted [reply 404 None; reply code body] [("C:/out/a.pdf", "%PDF")].

(** * Properties *)

(** ** Sample runs of the string primitives *)

Example get_network_link_sample :
  get_network_link
    "https://nbcrna.sharepoint.com/sites/HistoricalTranscripts/Shared%20Documents/Test2/Aalamjot%20Bhuller1_Transcript_2.pdf"
  = "\\nbcrna-file1\transcripts$\Test2\Aalamjot Bhuller1_Transcript_2.pdf".
Proof. reflexivity. Qed.

Example replace_overlap : PyStr.replace "aa" "b" "aaaaa" = "bba".
Proof. reflexivity. Qed.

Example replace_empty_old : PyStr.replace EmptyString "-" "abc" = "-a-b-c-".
Proof. reflexivity. Qed.

Example rsplit1_two_dots : PyStr.rsplit1 "." "a.b.pdf" = ["a.b"; "pdf"].
Proof. reflexivity. Qed.

Example rsplit1_no_dot : PyStr.rsplit1 "." "abc" = ["abc"].
Proof. reflexivity. Qed.

(** ** Facts on [PyStr] *)

Module PyStrFacts.
Import PyStr.

Lemma prefix_cons (a c : ascii) (p x : string) :
  prefix (String a p) (String c x) = Ascii.eqb a c && prefix p x.
Proof.
  simpl. destruct (ascii_dec a c) as [->|Hne].
  - now rewrite Ascii.eqb_refl.
  - apply Ascii.eqb_neq in Hne. now rewrite Hne.
Qed.

Lemma prefix_empty (x : string) : prefix EmptyString x = true.
Proof. now destruct x. Qed.

Lemma prefix_append (p x : string) : prefix p (p ++ x) = true.
Proof.
  induction p as [|a p IH]; [apply prefix_empty|].
  change (String a p ++ x)%string with (String a (p ++ x)).
  now rewrite prefix_cons, Ascii.eqb_refl.
Qed.

Lemma contains_cons (sub : string) (c : ascii) (x : string) :
  contains sub (String c x) = prefix sub (String c x) || contains sub x.
Proof. reflexivity. Qed.

Lemma replace_from_skip (old new : string) (k : nat) (c : ascii) (s : string) :
  replace_from old new (S k) (String c s) = replace_from old new k s.
Proof. reflexivity. Qed.

Lemma replace_from_here (old new : string) (c : ascii) (s : string) :
  replace_from old new 0 (String c s) =
  if prefix old (String c s) then
    (new ++ match String.length old with
            | O => String c (replace_from old new 0 s)
            | S k => replace_from old new k s
            end)%string
  else String c (replace_from old new 0 s).
Proof. reflexivity. Qed.

(** A string without occurrence of [old] is left as it is. *)
Lemma replace_absent (old new s : string) :
  contains old s = false -> replace old new s = s.
Proof.
  unfold replace. induction s as [|c s IH]; intros Hc.
  - simpl in *. now rewrite Hc.
  - rewrite contains_cons in Hc. apply orb_false_iff in Hc as [Hp Hc].
    rewrite replace_from_here, Hp. f_equal. auto.
Qed.

(** *** Decoding of [%20] *)

Lemma decode_here (c : ascii) (s : string) :
  decode 0 (String c s) =
  if prefix "%20" (String c s) then String " " (decode 2 s)
  else String c (decode 0 s).
Proof. reflexivity. Qed.

Lemma decode_head_0 (s : string) :
  prefix "0" (decode 0 s) = true -> prefix "0" s = true.
Proof.
  destruct s as [|c s]; [discriminate|].
  rewrite decode_here. destruct (prefix "%20" (String c s)); [discriminate|].
  now rewrite !prefix_cons, !prefix_empty.
Qed.

Lemma decode_head_20 (s : string) :
  prefix "20" (decode 0 s) = true -> prefix "20" s = true.
Proof.
  destruct s as [|c s]; [discriminate|].
  rewrite decode_here. destruct (prefix "%20" (String c s)); [discriminate|].
  rewrite !prefix_cons. intros [Hc Hs]%andb_true_iff.
  now rewrite Hc, (decode_head_0 _ Hs).
Qed.

Lemma decode_head (s : string) (k : nat) : prefix "%20" (decode k s) = false.
Proof.
  revert k. induction s as [|c s IH]; intros [|k]; try reflexivity.
  - rewrite decode_here. destruct (prefix "%20" (String c s)) eqn:E; [reflexivity|].
    rewrite prefix_cons in *.
    destruct (Ascii.eqb "%" c); [|reflexivity].
    destruct (prefix "20" (decode 0 s)) eqn:E2; [|reflexivity].
    now rewrite (decode_head_20 _ E2) in E.
  - rewrite replace_from_skip. apply IH.
Qed.

(** After the decoding no [%20] is left. *)
Lemma decode_clean (s : string) (k : nat) : contains "%20" (decode k s) = false.
Proof.
  revert k. induction s as [|c s IH]; intros [|k]; try reflexivity.
  - pose proof (decode_head (String c s) 0) as Hh.
    rewrite decode_here in *.
    destruct (prefix "%20" (String c s));
      rewrite contains_cons, Hh; apply IH.
  - rewrite replace_from_skip. apply IH.
Qed.

(** *** Turning [/] into [\] *)

Lemma backslashed_cons (c : ascii) (s : string) :
  backslashed (String c s) =
  String (if Ascii.eqb c "/" then "\"%char else c) (backslashed s).
Proof.
  rewrite replace_from_here, prefix_cons, prefix_empty, Ascii.eqb_sym.
  destruct (Ascii.eqb c "/"); reflexivity.
Qed.

Lemma backslashed_no_slash (s : string) : contains "/" (backslashed s) = false.
Proof.
  induction s as [|c s IH]; [reflexivity|].
  rewrite backslashed_cons, contains_cons, IH, prefix_cons, prefix_empty.
  destruct (Ascii.eqb c "/") eqn:E; [reflexivity|].
  now rewrite Ascii.eqb_sym, E.
Qed.

Lemma backslashed_head_0 (s : string) :
  prefix "0" (backslashed s) = prefix "0" s.
Proof.
  destruct s as [|c s]; [reflexivity|].
  rewrite backslashed_cons, !prefix_cons, !prefix_empty.
  destruct (Ascii.eqb c "/") eqn:E; [|reflexivity].
  apply Ascii.eqb_eq in E. now subst c.
Qed.

Lemma backslashed_head_20 (s : string) :
  prefix "20" (backslashed s) = prefix "20" s.
Proof.
  destruct s as [|c s]; [reflexivity|].
  rewrite backslashed_cons, !prefix_cons, backslashed_head_0.
  destruct (Ascii.eqb c "/") eqn:E; [|reflexivity].
  apply Ascii.eqb_eq in E. now subst c.
Qed.

Lemma backslashed_head (s : string) :
  prefix "%20" (backslashed s) = prefix "%20" s.
Proof.
  destruct s as [|c s]; [reflexivity|].
  rewrite backslashed_cons, !prefix_cons, backslashed_head_20.
  destruct (Ascii.eqb c "/") eqn:E; [|reflexivity].
  apply Ascii.eqb_eq in E. now subst c.
Qed.

Lemma backslashed_keeps_clean (s : string) :
  contains "%20" s = false -> contains "%20" (backslashed s) = false.
Proof.
  induction s as [|c s IH]; [easy|].
  rewrite contains_cons. intros [Hp Hc]%orb_false_iff.
  pose proof (backslashed_head (String c s)) as Hh.
  rewrite backslashed_cons in *.
  now rewrite contains_cons, Hh, Hp, IH.
Qed.

End PyStrFacts.

(** *** The split at the last separator *)

Lemma rsplit1_shape (sep : ascii) (s : string) :
  (PyStr.contains (String sep EmptyString) s = false /\ PyStr.rsplit1 sep s = [s]) \/
  (PyStr.contains (String sep EmptyString) s = true /\
   exists b e, PyStr.rsplit1 sep s = [b; e] /\ s = (b ++ String sep e)%string /\
               PyStr.contains (String sep EmptyString) e = false).
Proof.
  induction s as [|c s IH]; [now left|].
  rewrite PyStrFacts.contains_cons, PyStrFacts.prefix_cons, PyStrFacts.prefix_empty,
    andb_true_r.
  cbn [PyStr.rsplit1].
  destruct IH as [[Hc Hr]|[Hc (b & e & Hr & Hs & He)]]; rewrite Hr, Hc.
  - rewrite (Ascii.eqb_sym sep c). destruct (Ascii.eqb c sep) eqn:E.
    + right. split; [reflexivity|]. apply Ascii.eqb_eq in E. subst c.
      exists EmptyString, s. auto.
    + now left.
  - right. split; [apply orb_true_r|].
    exists (String c b), e. subst s. auto.
Qed.

(** ** get_network_link *)

Lemma network_prefix_slash_free (x : string) :
  PyStr.contains "/" x = false -> PyStr.contains "/" (network_prefix ++ x) = false.
Proof. intros Hx. cbn. exact Hx. Qed.

Lemma network_prefix_clean (x : string) :
  PyStr.contains "%20" x = false -> PyStr.contains "%20" (network_prefix ++ x) = false.
Proof. intros Hx. cbn. exact Hx. Qed.

(** C5.  For every input made of the known SharePoint prefix followed by any
    rest, the result of [get_network_link] starts with the network share
    prefix, contains no forward slash and no [%20]; the sample URL of the spec
    is translated to the expected UNC path. *)
Theorem get_network_link_under_prefix :
  (forall rest : string,
     let out := get_network_link (sharepoint_prefix ++ rest) in
     prefix network_prefix out = true /\
     PyStr.contains "/" out = false /\
     PyStr.contains "%20" out = false) /\
  get_network_link
    (sharepoint_prefix ++ "Test2/Bob%20Smith_Transcript_1.pdf")
  = "\\nbcrna-file1\transcripts$\Test2\Bob Smith_Transcript_1.pdf"%string.
Proof.
  split; [|reflexivity].
  intros rest out. subst out. unfold get_network_link, PyStr.replace.
  repeat split.
  - apply PyStrFacts.prefix_append.
  - apply network_prefix_slash_free, PyStrFacts.backslashed_no_slash.
  - apply network_prefix_clean, PyStrFacts.backslashed_keeps_clean,
      PyStrFacts.decode_clean.
Qed.

(** C6, as stated, fails: an input outside the known prefix is still decoded
    and its slashes are turned, so it is not prepended unmodified. *)
Lemma get_network_link_foreign_input_modified :
  prefix sharepoint_prefix "https://example.com/docs/My%20File.pdf" = false /\
  PyStr.contains sharepoint_prefix "https://example.com/docs/My%20File.pdf" = false /\
  get_network_link "https://example.com/docs/My%20File.pdf"
    = "\\nbcrna-file1\transcripts$\https:\\example.com\docs\My File.pdf"%string /\
  get_network_link "https://example.com/docs/My%20File.pdf"
    <> (network_prefix ++ "https://example.com/docs/My%20File.pdf")%string.
Proof. repeat split; try reflexivity. discriminate. Qed.

(** A string that starts with [p] is [p] followed by a rest. *)
Lemma prefix_is_append (p s : string) :
  prefix p s = true -> exists rest, s = (p ++ rest)%string.
Proof.
  revert s. induction p as [|a p IH]; intros s Hp; [now exists s|].
  destruct s as [|c s]; [discriminate Hp|].
  rewrite PyStrFacts.prefix_cons in Hp. apply andb_true_iff in Hp as [Hc Hp].
  apply Ascii.eqb_eq in Hc. subst c.
  destruct (IH s Hp) as [rest ->]. now exists rest.
Qed.

(** The known prefix holds a slash, so a string without slash does not hold
    the known prefix. *)
Lemma sharepoint_prefix_slash (s : string) :
  prefix sharepoint_prefix s = true -> PyStr.contains "/" s = true.
Proof. intros [rest ->]%prefix_is_append. reflexivity. Qed.

Lemma slash_free_no_sharepoint_prefix (s : string) :
  PyStr.contains "/" s = false -> PyStr.contains sharepoint_prefix s = false.
Proof.
  induction s as [|c s IH]; [reflexivity|].
  rewrite !PyStrFacts.contains_cons. intros Hs.
  destruct (prefix sharepoint_prefix (String c s)) eqn:Hp.
  - apply sharepoint_prefix_slash in Hp.
    rewrite PyStrFacts.contains_cons in Hp. congruence.
  - apply orb_false_iff in Hs as [_ Hs]. now rewrite IH.
Qed.

Lemma append_inv_head (p a b : string) : (p ++ a)%string = (p ++ b)%string -> a = b.
Proof.
  induction p as [|c p IH]; cbn; intros Hab; [exact Hab|].
  injection Hab. exact IH.
Qed.

(** C6, amended.  For every input that does not start with the known prefix,
    the result is the network prefix followed by the input after the three
    replacements of the code: every occurrence of the known prefix inside
    the input is removed (there is none to remove when the input does not
    hold the prefix), then every [%20] is decoded, then every slash is
    turned.  The input is prepended as it is if and only if it holds
    neither [%20] nor a slash. *)
Theorem get_network_link_outside_prefix (link : string) :
  prefix sharepoint_prefix link = false ->
  get_network_link link
    = (network_prefix
         ++ PyStr.replace "/" "\"
              (PyStr.replace "%20" " "
                 (PyStr.replace sharepoint_prefix EmptyString link)))%string /\
  (PyStr.contains sharepoint_prefix link = false ->
   get_network_link link
     = (network_prefix
          ++ PyStr.replace "/" "\" (PyStr.replace "%20" " " link))%string) /\
  (get_network_link link = (network_prefix ++ link)%string <->
   PyStr.contains "%20" link = false /\ PyStr.contains "/" link = false).
Proof.
  intros Hout. split; [reflexivity|]. split.
  - intros Habsent. unfold get_network_link.
    now rewrite (PyStrFacts.replace_absent _ _ _ Habsent).
  - split.
    + intros Hsame. unfold get_network_link in Hsame.
      apply append_inv_head in Hsame. rewrite <- Hsame.
      unfold PyStr.replace. split.
      * apply PyStrFacts.backslashed_keeps_clean, PyStrFacts.decode_clean.
      * apply PyStrFacts.backslashed_no_slash.
    + intros [H20 Hs]. unfold get_network_link.
      now rewrite
        (PyStrFacts.replace_absent _ _ _ (slash_free_no_sharepoint_prefix _ Hs)),
        (PyStrFacts.replace_absent _ _ _ H20),
        (PyStrFacts.replace_absent _ _ _ Hs).
Qed.

Lemma get_network_link_outside_prefix_witness :
  get_network_link "Test2/a%20b.pdf"
    = "\\nbcrna-file1\transcripts$\Test2\a b.pdf"%string /\
  get_network_link "Test2/a%20b.pdf"
    <> (network_prefix ++ "Test2/a%20b.pdf")%string /\
  get_network_link "report.pdf" = (network_prefix ++ "report.pdf")%string /\
  get_network_link
    "x/https://nbcrna.sharepoint.com/sites/HistoricalTranscripts/Shared%20Documents/y%20z"
    = "\\nbcrna-file1\transcripts$\x\y z"%string.
Proof.
  split; [|split; [|split]].
  - rewrite (proj1 (proj2 (get_network_link_outside_prefix "Test2/a%20b.pdf"
                             eq_refl)) eq_refl).
    reflexivity.
  - intros Hsame.
    apply (get_network_link_outside_prefix "Test2/a%20b.pdf" eq_refl) in Hsame.
    destruct Hsame as [Hclean _]. discriminate Hclean.
  - apply (get_network_link_outside_prefix "report.pdf" eq_refl).
    split; reflexivity.
  - rewrite (proj1 (get_network_link_outside_prefix
                      "x/https://nbcrna.sharepoint.com/sites/HistoricalTranscripts/Shared%20Documents/y%20z"
                      eq_refl)).
    reflexivity.
Defined.

(** ** The remote-call components *)

Section ComponentFacts.

Context {World : Type} `{Transport World}.

Lemma while_file_exists_done (fuel : nat) (body : script World pass) (w : World) :
  while_file_exists fuel body false w = Some (Return None, w, []).
Proof. now destruct fuel. Qed.

Lemma while_file_exists_once (fuel : nat) (body : script World pass) (w : World) :
  while_file_exists (S fuel) body true w =
  match body w with
  | (Raise e, w1, t1) => Some (Raise e, w1, t1)
  | (Return (Returns v), w1, t1) => Some (Return (Some v), w1, t1)
  | (Return (Continues fe), w1, t1) =>
      match while_file_exists fuel body fe w1 with
      | Some (r, w2, t2) => Some (r, w2, (t1 ++ t2)%list)
      | None => None
      end
  end.
Proof. reflexivity. Qed.

(** Case analysis on a run: every answer of the world that the script
    inspects is split, innermost scrutinee first. *)
Ltac break_innermost :=
  match goal with
  | |- context [match ?x with _ => _ end] =>
      lazymatch x with
      | context [match _ with _ => _ end] => fail
      | _ => destruct x eqn:?
      end
  end.

Ltac run_script :=
  unfold get_access_token, get_site_id, get_shared_documents_drive_id,
    list_folders_in_drive, create_folder,
    probe_pass, upload_step, try_binding, try_except, bind, http, open_rb,
    json_dump, py_print, lift, ret, throw, response_json, raise_for_status;
  repeat first
    [ rewrite while_file_exists_done
    | progress cbv beta iota zeta
    | break_innermost ].

Ltac upload_cases name :=
  unfold upload_pdf;
  let Hdot := fresh "Hdot" in
  destruct (rsplit1_shape "." name)
    as [[Hdot ->]|[Hdot (? & ? & -> & ? & ?)]];
  [ | rewrite !while_file_exists_once; run_script ].

Ltac status_facts :=
  repeat match goal with
  | H : (_ && _) = true |- _ => apply andb_true_iff in H as [? ?]
  | H : (_ && _) = false |- _ => apply andb_false_iff in H
  | H : (_ =? _) = true |- _ => apply Z.eqb_eq in H
  | H : (_ =? _) = false |- _ => apply Z.eqb_neq in H
  | H : (_ <=? _) = true |- _ => apply Z.leb_le in H
  | H : (_ <=? _) = false |- _ => apply Z.leb_gt in H
  | H : (_ <? _) = true |- _ => apply Z.ltb_lt in H
  | H : (_ <? _) = false |- _ => apply Z.ltb_ge in H
  end.

(** Two facts on the value of one term are joined. *)
Ltac join_facts :=
  repeat match goal with
  | H1 : ?t = _, H2 : ?t = _ |- _ =>
      rewrite H1 in H2;
      first [ discriminate H2 | injection H2; clear H2; intros; subst ]
  end.

Ltac simplify_eqs :=
  repeat match goal with
  | H : ?x = ?y |- _ =>
      first [ discriminate H
            | is_var x; subst x
            | is_var y; subst y
            | progress (injection H; clear H; intros) ]
  end.

Ltac use_lookups :=
  repeat match goal with
  | Hd : assoc ?k ?d = _ |- context [assoc ?k ?d] => rewrite Hd
  | Hd : assoc ?k ?d = _, Hm : context [assoc ?k ?d] |- _ => rewrite Hd in Hm
  end.

(** What the standard output did in the run against what is known of it. *)
Ltac stdout_facts :=
  match goal with
  | Ht : stdout_takes _, Hp : print_text _ ?w = (false, _) |- _ =>
      exfalso; generalize (Ht w); rewrite Hp; discriminate
  | Ht : stdout_refuses _, Hp : print_text _ ?w = (true, _) |- _ =>
      exfalso; generalize (Ht w); rewrite Hp; discriminate
  | Ht : forall e : exn, stdout_takes _,
    Hp : print_text (PrFailure _ ?e0) ?w = (false, _) |- _ =>
      exfalso; generalize (Ht e0 w); rewrite Hp; discriminate
  | Ht : forall e : exn, stdout_refuses _,
    Hp : print_text (PrFailure _ ?e0) ?w = (true, _) |- _ =>
      exfalso; generalize (Ht e0 w); rewrite Hp; discriminate
  end.

Ltac settle :=
  repeat match goal with
  | H : _ /\ _ |- _ => destruct H
  | H : _ \/ _ |- _ => destruct H
  | H : exists _, _ |- _ => destruct H
  end;
  simplify_eqs; status_facts;
  repeat (join_facts; cbn [py_get py_item py_first] in * );
  simplify_eqs; use_lookups;
  cbn [py_get py_item py_first] in *; simplify_eqs;
  try solve [ reflexivity | congruence | lia | intuition congruence
            | stdout_facts | auto ].

(** A goal on the end of a handler: each of its three parts is settled. *)
Ltac settle_handler :=
  unfold falls_back; repeat split; intros; settle.

Ltac pick_event H :=
  repeat match type of H with
  | _ \/ _ => destruct H as [H|H]
  | False => destruct H
  end.

Ltac on_script :=
  unfold value_of, events_of; run_script; cbn [fst snd app In].

Ltac on_answer Hin :=
  on_script; intros Hin; pick_event Hin; try discriminate Hin;
  injection Hin; clear Hin; intros; subst.

Ltac on_upload_event Hin :=
  intros Hin; pick_event Hin; try discriminate Hin;
  injection Hin; clear Hin; intros; subst.

(** The bound on the unrolling is immaterial from one pass on. *)
Lemma upload_pdf_fuel (fuel : nat)
    (access_token drive_id folder_name pdf_file_name pdf_file_path : string)
    (w : World) :
  upload_pdf (S fuel) access_token drive_id folder_name pdf_file_name pdf_file_path w
  = upload_pdf 1 access_token drive_id folder_name pdf_file_name pdf_file_path w.
Proof. upload_cases pdf_file_name; reflexivity. Qed.

(** C7.  With any bound of at least one pass, a call of [upload_pdf] ends
    (with a value or an exception), the loop body is run once only, and the
    trace holds at most one probe GET and at most one upload PUT. *)
Theorem upload_pdf_single_attempt (fuel : nat)
    (access_token drive_id folder_name pdf_file_name pdf_file_path : string)
    (w : World) :
  exists r w' tr,
    upload_pdf (S fuel) access_token drive_id folder_name pdf_file_name
      pdf_file_path w = Some (r, w', tr) /\
    upload_pdf (S fuel) access_token drive_id folder_name pdf_file_name
      pdf_file_path w
    = upload_pdf 1 access_token drive_id folder_name pdf_file_name
        pdf_file_path w /\
    (length (filter is_probe tr) <= 1)%nat /\
    (length (filter is_upload tr) <= 1)%nat.
Proof.
  rewrite (upload_pdf_fuel fuel).
  upload_cases pdf_file_name;
    do 3 eexists; (split; [reflexivity|]); (split; [reflexivity|]);
    cbn; lia.
Qed.

Ltac on_run name :=
  match goal with
  | |- context [upload_pdf ?f ?a ?d ?fo name ?p ?w] =>
      let run := fresh "run" in
      let Hrun := fresh "Hrun" in
      remember (upload_pdf f a d fo name p w) as run eqn:Hrun;
      symmetry in Hrun; revert Hrun;
      upload_cases name; intros <-;
      cbn [trace_of result_of app In]
  end.

(** C1, amended.  When the probe GET of a call is answered with status
    200, the call ends there: the trace is that single request, so no
    upload PUT is sent.  With a body that is a JSON object the call prints
    the [webUrl] of the object ([None] when it has none): it returns
    [(webUrl, False)] when the standard output takes the text, and the
    exception of the [print] leaves it when the text is refused.  With a
    body that is no JSON object the call raises before it prints. *)
Theorem upload_pdf_existing_file (fuel : nat)
    (access_token drive_id folder_name pdf_file_name pdf_file_path : string)
    (w : World) (e : event) :
  In e (trace_of (upload_pdf (S fuel) access_token drive_id folder_name
                    pdf_file_name pdf_file_path w)) ->
  is_probe e = true ->
  answered_with 200 e = true ->
  trace_of (upload_pdf (S fuel) access_token drive_id folder_name
              pdf_file_name pdf_file_path w) = [e] /\
  is_upload e = false /\
  exists rq r,
    e = EvHttp rq (Responded r) /\
    (forall d url,
       body_json r = Some (JObj d) ->
       assoc "webUrl" d = Some url \/ assoc "webUrl" d = None /\ url = JNull ->
       (stdout_takes (PrLabelled "File already exists: " url) ->
        result_of (upload_pdf (S fuel) access_token drive_id folder_name
                     pdf_file_name pdf_file_path w)
        = Some (Return (url, false))) /\
       (stdout_refuses (PrLabelled "File already exists: " url) ->
        result_of (upload_pdf (S fuel) access_token drive_id folder_name
                     pdf_file_name pdf_file_path w)
        = Some (Raise StdoutError)) /\
       (result_of (upload_pdf (S fuel) access_token drive_id folder_name
                     pdf_file_name pdf_file_path w)
        = Some (Return (url, false)) \/
        result_of (upload_pdf (S fuel) access_token drive_id folder_name
                     pdf_file_name pdf_file_path w)
        = Some (Raise StdoutError))) /\
    (body_json r = None ->
     result_of (upload_pdf (S fuel) access_token drive_id folder_name
                  pdf_file_name pdf_file_path w)
     = Some (Raise JSONDecodeError)) /\
    (forall x,
       body_json r = Some x -> (forall d, x <> JObj d) ->
       result_of (upload_pdf (S fuel) access_token drive_id folder_name
                    pdf_file_name pdf_file_path w)
       = Some (Raise AttributeError)).
Proof.
  on_run pdf_file_name; intros Hin Hp Hs; pick_event Hin; subst e;
    try discriminate; cbn in Hs; try congruence.
  all: split; [reflexivity|]; split; [reflexivity|].
  all: do 2 eexists; split; [reflexivity|].
  all: split;
    [ intros d url Hbody Hurl; repeat split; intros; settle
    | split; [intros Hbody; settle | intros body Hbody Hshape; settle] ].
  all: match goal with
       | Hg : py_get ?x _ = _ |- _ => destruct x; cbn in Hg; settle
       end;
       exfalso; eapply Hshape; reflexivity.
Qed.

(** C2.  When a request of a call (the probe GET or the upload PUT) is
    answered with status 401, the call returns [(None, True)] and nothing
    follows that request in the trace. *)
Theorem upload_pdf_auth_expired (fuel : nat)
    (access_token drive_id folder_name pdf_file_name pdf_file_path : string)
    (w : World) (pre post : trace) (e : event) :
  trace_of (upload_pdf (S fuel) access_token drive_id folder_name
              pdf_file_name pdf_file_path w) = (pre ++ e :: post)%list ->
  answered_with 401 e = true ->
  result_of (upload_pdf (S fuel) access_token drive_id folder_name
               pdf_file_name pdf_file_path w) = Some (Return (JNull, true)) /\
  post = [] /\
  (is_probe e = true \/ is_upload e = true).
Proof.
  on_run pdf_file_name; intros Htr Hs.
  all: repeat (destruct pre as [|? pre]; try discriminate Htr).
  all: injection Htr as; subst; try discriminate Hs.
  all: cbn in Hs; status_facts; try lia.
  all: try (repeat split; auto; fail).
  all: intuition lia.
Qed.

(** C8.  Every PUT of a call goes to the path built from the drive, the
    folder and the file name as the caller gave it, followed by
    [:/content]; nothing is appended to the name. *)
Theorem upload_pdf_target (fuel : nat)
    (access_token drive_id folder_name pdf_file_name pdf_file_path : string)
    (w : World) (rq : request) (o : outcome) :
  In (EvHttp rq o)
     (trace_of (upload_pdf (S fuel) access_token drive_id folder_name
                  pdf_file_name pdf_file_path w)) ->
  req_method rq = PUT ->
  req_url rq =
    ("https://graph.microsoft.com/v1.0/drives/" ++ drive_id ++ "/root:/"
       ++ folder_name ++ "/" ++ pdf_file_name ++ ":/content")%string.
Proof.
  on_run pdf_file_name; intros Hin Hm; pick_event Hin;
    try discriminate Hin; injection Hin as <- <-; try discriminate Hm;
    reflexivity.
Qed.

(** C9.  A file name with a dot is split in two at its last dot, and the
    call goes on to the probe: the first effect of the call is the probe
    GET. *)
Theorem upload_pdf_split_succeeds (fuel : nat)
    (access_token drive_id folder_name pdf_file_name pdf_file_path : string)
    (w : World) :
  PyStr.contains "." pdf_file_name = true ->
  (exists base_filename file_extension,
     PyStr.rsplit1 "." pdf_file_name = [base_filename; file_extension] /\
     pdf_file_name = (base_filename ++ "." ++ file_extension)%string /\
     PyStr.contains "." file_extension = false) /\
  (exists e,
     hd_error (trace_of (upload_pdf (S fuel) access_token drive_id folder_name
                           pdf_file_name pdf_file_path w)) = Some e /\
     is_probe e = true).
Proof.
  intros Hdot. split.
  - destruct (rsplit1_shape "." pdf_file_name) as [[Hc _]|[_ (b & e & ? & ? & ?)]];
      [congruence|eauto].
  - revert Hdot. on_run pdf_file_name; intros Hc; try congruence;
      eexists; split; reflexivity.
Qed.

(** A failed read of the local file leaves [upload_pdf] with an exception:
    the handler reads [upload_response], which is not bound yet. *)
Lemma upload_pdf_read_failure (fuel : nat)
    (access_token drive_id folder_name pdf_file_name pdf_file_path : string)
    (w : World) (path : string) :
  In (EvRead path None)
     (trace_of (upload_pdf (S fuel) access_token drive_id folder_name
                  pdf_file_name pdf_file_path w)) ->
  result_of (upload_pdf (S fuel) access_token drive_id folder_name
               pdf_file_name pdf_file_path w) = Some (Raise UnboundLocalError).
Proof.
  on_run pdf_file_name; intros Hin; pick_event Hin; try discriminate Hin;
    reflexivity.
Qed.

(** *** The components guarded by one [try] *)

(** The only exception that can leave one of the five components guarded
    by one [try] is the one of the [print] in its handler. *)
Lemma get_access_token_raises (tenant_id client_id client_secret : string)
    (w : World) (e : exn) :
  value_of (get_access_token tenant_id client_id client_secret w) = Raise e ->
  e = StdoutError.
Proof. on_script; intros; settle. Qed.

Lemma get_site_id_raises (access_token site_url : string) (w : World) (e : exn) :
  value_of (get_site_id access_token site_url w) = Raise e -> e = StdoutError.
Proof. on_script; intros; settle. Qed.

Lemma get_shared_documents_drive_id_raises (access_token drive_url : string)
    (w : World) (e : exn) :
  value_of (get_shared_documents_drive_id access_token drive_url w) = Raise e ->
  e = StdoutError.
Proof. on_script; intros; settle. Qed.

Lemma list_folders_in_drive_raises (access_token folders_url : string)
    (w : World) (e : exn) :
  value_of (list_folders_in_drive access_token folders_url w) = Raise e ->
  e = StdoutError.
Proof. on_script; intros; settle. Qed.

Lemma create_folder_raises (access_token drive_id folder_name : string)
    (w : World) (e : exn) :
  value_of (create_folder access_token drive_id folder_name w) = Raise e ->
  e = StdoutError.
Proof. on_script; intros; settle. Qed.

(** C3, amended.  For the answer the world gives to the POST of
    [create_folder]: a response with a status outside 4xx and 5xx (a 2xx
    status, but also 100, 300 or 600) whose JSON is an object with a
    [webUrl] makes the call return that [webUrl]; a 4xx or 5xx response,
    and a request that fails, send the call to its handler, which prints
    the failure and returns [None]: the call returns [None] when the
    standard output takes the message, and the exception of the [print]
    leaves it when the message is refused. *)
Theorem create_folder_result (access_token drive_id folder_name : string)
    (w : World) (rq : request) (o : outcome) :
  In (EvHttp rq o)
     (events_of (create_folder access_token drive_id folder_name w)) ->
  match o with
  | Responded r =>
      (~ (400 <= status_code r < 600) ->
       forall d url,
         body_json r = Some (JObj d) -> assoc "webUrl" d = Some url ->
         value_of (create_folder access_token drive_id folder_name w) = Return url) /\
      (400 <= status_code r < 600 ->
       falls_back "Failed to create folder: " JNull
         (value_of (create_folder access_token drive_id folder_name w)))
  | TransportFailure =>
      falls_back "Failed to create folder: " JNull
        (value_of (create_folder access_token drive_id folder_name w))
  end.
Proof.
  on_answer Hin; try settle_handler.
  all: split; [intros Hs d url Hbody Hurl; settle | intros Hs; settle_handler].
Qed.

(** C10, amended.  For the response to the GET of
    [get_shared_documents_drive_id].  With a 2xx status and a JSON object
    whose [value] is a list starting with an object that has an [id], the
    call prints the decoded body and returns that [id] when the standard
    output takes the text; when the text is refused the call goes to its
    handler instead.  With a JSON object whose [value] is missing or is the
    empty list, the call goes to its handler and no [KeyError] or
    [IndexError] leaves it.  The handler prints the failure and returns
    [None]: the call returns [None] when the standard output takes the
    message, and the exception of the [print] leaves it when the message is
    refused. *)
Theorem get_shared_documents_drive_id_result (access_token drive_url : string)
    (w : World) (rq : request) (r : response) :
  In (EvHttp rq (Responded r))
     (events_of (get_shared_documents_drive_id access_token drive_url w)) ->
  (200 <= status_code r < 300 ->
   forall d d1 rest v,
     body_json r = Some (JObj d) ->
     assoc "value" d = Some (JArr (JObj d1 :: rest)) ->
     assoc "id" d1 = Some v ->
     (stdout_takes (PrValue (JObj d)) ->
      value_of (get_shared_documents_drive_id access_token drive_url w) = Return v) /\
     (stdout_refuses (PrValue (JObj d)) ->
      falls_back "Failed to retrieve Shared Documents drive ID: " JNull
        (value_of (get_shared_documents_drive_id access_token drive_url w))) /\
     (value_of (get_shared_documents_drive_id access_token drive_url w) = Return v \/
      falls_back "Failed to retrieve Shared Documents drive ID: " JNull
        (value_of (get_shared_documents_drive_id access_token drive_url w)))) /\
  (forall d,
     body_json r = Some (JObj d) ->
     assoc "value" d = None \/ assoc "value" d = Some (JArr []) ->
     falls_back "Failed to retrieve Shared Documents drive ID: " JNull
       (value_of (get_shared_documents_drive_id access_token drive_url w))).
Proof.
  on_answer Hin.
  all: split;
    [ intros Hs d d1 rest v Hbody Hvalue Hid; settle;
      (split; [intros Hstd; settle|]);
      (split; [intros Hstd; try settle_handler|]);
      try (left; settle; fail); try (right; settle_handler)
    | intros d Hbody Hvalue; settle_handler ].
Qed.

(** *** Further behaviour of the components *)

(** X1.  get_access_token sends one request whatever happens, the POST of the
    client-credentials form to the token endpoint of the tenant; the only
    exception that can leave it is the one of the [print] in its handler. *)
Theorem get_access_token_single_post (tenant_id client_id client_secret : string)
    (w : World) :
  exists o,
    events_of (get_access_token tenant_id client_id client_secret w)
    = [EvHttp
         (mkRequest POST
            ("https://login.microsoftonline.com/" ++ tenant_id
               ++ "/oauth2/v2.0/token")
            []
            (FormBody [("client_id", client_id);
                       ("client_secret", client_secret);
                       ("scope", "https://graph.microsoft.com/.default");
                       ("grant_type", "client_credentials")]))
         o] /\
    forall e,
      value_of (get_access_token tenant_id client_id client_secret w) = Raise e ->
      e = StdoutError.
Proof. on_script; eexists; (split; [reflexivity|]); intros; settle. Qed.

(** X2.  A failed token request (no connection, a 4xx or 5xx status, or a
    body that is not JSON) sends get_access_token to its handler: it
    returns [None] when the standard output takes the failure message, and
    the exception of the [print] leaves it when the message is refused. *)
Theorem get_access_token_failure (tenant_id client_id client_secret : string)
    (w : World) (rq : request) (o : outcome) :
  In (EvHttp rq o)
     (events_of (get_access_token tenant_id client_id client_secret w)) ->
  (o = TransportFailure \/
   exists r, o = Responded r /\
             (400 <= status_code r < 600 \/ body_json r = None)) ->
  falls_back "Failed to obtain access token: " JNull
    (value_of (get_access_token tenant_id client_id client_secret w)).
Proof. on_answer Hin; settle_handler. Qed.

(** X3.  A token response that is no error and is a JSON object gives its
    [access_token], and [None] when the key is missing. *)
Theorem get_access_token_success (tenant_id client_id client_secret : string)
    (w : World) (rq : request) (r : response) (d : list (string * json)) :
  In (EvHttp rq (Responded r))
     (events_of (get_access_token tenant_id client_id client_secret w)) ->
  ~ (400 <= status_code r < 600) ->
  body_json r = Some (JObj d) ->
  (forall token, assoc "access_token" d = Some token ->
     value_of (get_access_token tenant_id client_id client_secret w)
     = Return token) /\
  (assoc "access_token" d = None ->
     value_of (get_access_token tenant_id client_id client_secret w)
     = Return JNull).
Proof.
  on_answer Hin; settle; split; intros; settle.
Qed.

Lemma py_item_inv (x : json) (key : string) (v : json) :
  py_item x key = Return v -> exists d, x = JObj d /\ assoc key d = Some v.
Proof.
  destruct x; try discriminate. cbn.
  destruct (assoc key members) eqn:E; [|discriminate].
  intros [= ->]. eauto.
Qed.

(** X4.  get_site_id sends one request, the GET of [site_url] with the bearer
    token as its only header; the only exception that can leave it is the
    one of the [print] in its handler. *)
Theorem get_site_id_single_get (access_token site_url : string) (w : World) :
  exists o,
    events_of (get_site_id access_token site_url w)
    = [EvHttp
         (mkRequest GET site_url
            [("Authorization", "Bearer " ++ access_token)] NoBody)
         o] /\
    forall e,
      value_of (get_site_id access_token site_url w) = Raise e ->
      e = StdoutError.
Proof. on_script; eexists; (split; [reflexivity|]); intros; settle. Qed.

(** X5.  The value of get_site_id is read off the answer to its GET.  When the
    request fails (no connection, 4xx or 5xx, no JSON) the handler runs:
    [None] when the standard output takes the failure message, the
    exception of the [print] when it refuses it.  Else the value is the
    [id] of the JSON object, and [None] when the object has none. *)
Theorem get_site_id_answer (access_token site_url : string) (w : World)
    (rq : request) (o : outcome) :
  In (EvHttp rq o) (events_of (get_site_id access_token site_url w)) ->
  ((o = TransportFailure \/
    exists r, o = Responded r /\
              (400 <= status_code r < 600 \/ body_json r = None)) ->
   falls_back "Failed to retrieve site ID: " JNull
     (value_of (get_site_id access_token site_url w))) /\
  (forall r d,
     o = Responded r -> ~ (400 <= status_code r < 600) ->
     body_json r = Some (JObj d) ->
     (forall i, assoc "id" d = Some i ->
        value_of (get_site_id access_token site_url w) = Return i) /\
     (assoc "id" d = None ->
        value_of (get_site_id access_token site_url w) = Return JNull)).
Proof.
  on_answer Hin; (split; [intros; settle_handler|]);
    intros r' d' Ho Hok Hbody; settle; split; intros; settle.
Qed.

(** X6.  A failed drive request (no connection, a 4xx or 5xx status, also when
    its body lists drives, or a body that is not JSON) sends
    get_shared_documents_drive_id to its handler: it returns [None] when
    the standard output takes the failure message, and the exception of the
    [print] leaves it when the message is refused. *)
Theorem get_shared_documents_drive_id_failure (access_token drive_url : string)
    (w : World) (rq : request) (o : outcome) :
  In (EvHttp rq o)
     (events_of (get_shared_documents_drive_id access_token drive_url w)) ->
  (o = TransportFailure \/
   exists r, o = Responded r /\
             (400 <= status_code r < 600 \/ body_json r = None)) ->
  falls_back "Failed to retrieve Shared Documents drive ID: " JNull
    (value_of (get_shared_documents_drive_id access_token drive_url w)).
Proof. on_answer Hin; settle_handler. Qed.

(** X7.  A [value] of the wrong shape (a string or an object in place of the
    list, or a first element that is a string or an object without [id])
    sends get_shared_documents_drive_id to its handler, whatever the
    status: it returns [None] when the standard output takes the failure
    message, and the exception of the [print] leaves it when the message is
    refused; no [KeyError], [IndexError] or [TypeError] leaves it. *)
Theorem get_shared_documents_drive_id_malformed (access_token drive_url : string)
    (w : World) (rq : request) (r : response) (d : list (string * json))
    (v : json) :
  In (EvHttp rq (Responded r))
     (events_of (get_shared_documents_drive_id access_token drive_url w)) ->
  body_json r = Some (JObj d) ->
  assoc "value" d = Some v ->
  ((exists s, v = JStr s) \/
   (exists m, v = JObj m) \/
   (exists s rest, v = JArr (JStr s :: rest)) \/
   (exists d1 rest, v = JArr (JObj d1 :: rest) /\ assoc "id" d1 = None)) ->
  falls_back "Failed to retrieve Shared Documents drive ID: " JNull
    (value_of (get_shared_documents_drive_id access_token drive_url w)).
Proof.
  on_answer Hin; settle_handler;
    repeat match goal with
    | Hf : py_first (JStr ?s) = _ |- _ => destruct s; cbn in Hf
    end; settle.
Qed.

(** X8.  list_folders_in_drive writes to one file only, [folders_data_value.json],
    and only the [value] of a JSON object that came with a status outside
    4xx and 5xx.  After a successful write the function prints that the
    data was saved and returns [None] when the standard output takes the
    text; when that text is refused, and when the writing fails, the
    handler runs: [None] when the standard output takes the failure
    message, the exception of the [print] when it refuses it. *)
Theorem list_folders_in_drive_writes_value (access_token folders_url : string)
    (w : World) (path : string) (doc : json) (ok : bool) :
  In (EvWrite path doc ok)
     (events_of (list_folders_in_drive access_token folders_url w)) ->
  path = "folders_data_value.json"%string /\
  (exists rq r d,
     events_of (list_folders_in_drive access_token folders_url w)
     = [EvHttp rq (Responded r); EvWrite path doc ok] /\
     ~ (400 <= status_code r < 600) /\
     body_json r = Some (JObj d) /\
     assoc "value" d = Some doc) /\
  (ok = true ->
   stdout_takes (PrText "Folder data saved to folders_data_value.json") ->
   value_of (list_folders_in_drive access_token folders_url w) = Return tt) /\
  (ok = true ->
   stdout_refuses (PrText "Folder data saved to folders_data_value.json") ->
   falls_back "Failed to list folders: " tt
     (value_of (list_folders_in_drive access_token folders_url w))) /\
  (ok = false ->
   falls_back "Failed to list folders: " tt
     (value_of (list_folders_in_drive access_token folders_url w))).
Proof.
  on_answer Hin; (split; [reflexivity|]);
    repeat match goal with u : unit |- _ => destruct u end;
    (split;
      [ match goal with
        | Hv : py_item _ _ = Return _ |- _ =>
            apply py_item_inv in Hv as (d & -> & Hv)
        end;
        do 3 eexists; (split; [reflexivity|]); status_facts;
        (split; [lia|]); split; eassumption
      | ]);
    repeat split; intros; settle; settle_handler.
Qed.

(** X9.  When the listing fails (no connection, 4xx or 5xx, no JSON, or an object
    without [value]) nothing is written and the handler runs: the function
    returns [None] when the standard output takes the failure message, and
    the exception of the [print] leaves it when the message is refused. *)
Theorem list_folders_in_drive_failure (access_token folders_url : string)
    (w : World) (rq : request) (o : outcome) :
  In (EvHttp rq o)
     (events_of (list_folders_in_drive access_token folders_url w)) ->
  (o = TransportFailure \/
   exists r, o = Responded r /\
             (400 <= status_code r < 600 \/ body_json r = None \/
              exists d, body_json r = Some (JObj d) /\ assoc "value" d = None)) ->
  events_of (list_folders_in_drive access_token folders_url w) = [EvHttp rq o] /\
  falls_back "Failed to list folders: " tt
    (value_of (list_folders_in_drive access_token folders_url w)).
Proof.
  on_answer Hin; repeat match goal with u : unit |- _ => destruct u end;
    settle; (split; [settle|settle_handler]).
Qed.

(** X10.  create_folder sends one request, the POST of the folder description with
    the conflict behaviour [rename] to the children of the drive root; it
    sends no GET (there is no existence check), and the only exception that
    can leave it is the one of the [print] in its handler. *)
Theorem create_folder_single_post (access_token drive_id folder_name : string)
    (w : World) :
  exists o,
    events_of (create_folder access_token drive_id folder_name w)
    = [EvHttp
         (mkRequest POST
            ("https://graph.microsoft.com/v1.0/drives/" ++ drive_id
               ++ "/root/children")
            [("Authorization", "Bearer " ++ access_token);
             ("Content-Type", "application/json")]
            (JsonBody
               (JObj [("name", JStr folder_name);
                      ("folder", JObj []);
                      ("@microsoft.graph.conflictBehavior", JStr "rename")])))
         o] /\
    forall e,
      value_of (create_folder access_token drive_id folder_name w) = Raise e ->
      e = StdoutError.
Proof. on_script; eexists; (split; [reflexivity|]); intros; settle. Qed.

(** X11.  An answer to create_folder without a readable [webUrl].  An object
    without the key that came with a status outside 4xx and 5xx gives
    [None].  A body that is not JSON, and any body with a 4xx or 5xx
    status, send the call to its handler: [None] when the standard output
    takes the failure message, the exception of the [print] when it refuses
    it. *)
Theorem create_folder_no_link (access_token drive_id folder_name : string)
    (w : World) (rq : request) (r : response) :
  In (EvHttp rq (Responded r))
     (events_of (create_folder access_token drive_id folder_name w)) ->
  (body_json r = None \/
   exists d, body_json r = Some (JObj d) /\ assoc "webUrl" d = None) ->
  (~ (400 <= status_code r < 600) -> body_json r <> None ->
   value_of (create_folder access_token drive_id folder_name w) = Return JNull) /\
  (400 <= status_code r < 600 \/ body_json r = None ->
   falls_back "Failed to create folder: " JNull
     (value_of (create_folder access_token drive_id folder_name w))).
Proof.
  on_answer Hin; (split; [intros; settle | intros; settle_handler]).
Qed.

(** *** Further behaviour of upload_pdf *)

Lemma append_assoc (x y z : string) : ((x ++ y) ++ z = x ++ (y ++ z))%string.
Proof. induction x as [|c x IH]; cbn; [reflexivity|now rewrite IH]. Qed.

(** X12.  A file name without a dot stops upload_pdf at the split: [ValueError]
    is raised before anything is sent or read, whatever the bound. *)
Theorem upload_pdf_needs_extension (fuel : nat)
    (access_token drive_id folder_name pdf_file_name pdf_file_path : string)
    (w : World) :
  PyStr.contains "." pdf_file_name = false ->
  upload_pdf fuel access_token drive_id folder_name pdf_file_name pdf_file_path w
  = Some (Raise ValueError, w, []).
Proof.
  intros Hdot. unfold upload_pdf.
  destruct (rsplit1_shape "." pdf_file_name) as [[_ ->]|[Hc _]];
    [reflexivity|congruence].
Qed.

(** X13.  When the probe cannot be sent, the exception of [requests] leaves
    upload_pdf and the probe is the only effect of the call. *)
Theorem upload_pdf_probe_unreachable (fuel : nat)
    (access_token drive_id folder_name pdf_file_name pdf_file_path : string)
    (w : World) (rq : request) :
  In (EvHttp rq TransportFailure)
     (trace_of (upload_pdf (S fuel) access_token drive_id folder_name
                  pdf_file_name pdf_file_path w)) ->
  req_method rq = GET ->
  result_of (upload_pdf (S fuel) access_token drive_id folder_name
               pdf_file_name pdf_file_path w) = Some (Raise RequestException) /\
  trace_of (upload_pdf (S fuel) access_token drive_id folder_name
              pdf_file_name pdf_file_path w) = [EvHttp rq TransportFailure].
Proof.
  on_run pdf_file_name; on_upload_event Hin; settle; split; reflexivity.
Qed.

(** X14.  A probe answered 200 whose body is not a JSON object makes upload_pdf
    raise: [JSONDecodeError] for a body that is not JSON, [AttributeError]
    for JSON that is no object. *)
Theorem upload_pdf_probe_unreadable (fuel : nat)
    (access_token drive_id folder_name pdf_file_name pdf_file_path : string)
    (w : World) (rq : request) (r : response) :
  In (EvHttp rq (Responded r))
     (trace_of (upload_pdf (S fuel) access_token drive_id folder_name
                  pdf_file_name pdf_file_path w)) ->
  req_method rq = GET ->
  status_code r = 200 ->
  (body_json r = None ->
   result_of (upload_pdf (S fuel) access_token drive_id folder_name
                pdf_file_name pdf_file_path w) = Some (Raise JSONDecodeError)) /\
  (forall x, body_json r = Some x -> (forall d, x <> JObj d) ->
   result_of (upload_pdf (S fuel) access_token drive_id folder_name
                pdf_file_name pdf_file_path w) = Some (Raise AttributeError)).
Proof.
  on_run pdf_file_name; on_upload_event Hin; settle;
    (split; [intros; settle|]); intros body Hbody Hshape; settle;
    match goal with
    | Hg : py_get ?x _ = _ |- _ => destruct x; cbn in Hg; settle
    end;
    exfalso; eapply Hshape; reflexivity.
Qed.

(** X15.  A PUT is only sent as the third effect of a call: after a probe that
    was answered with a status other than 200 and 401 and after the local
    file was read.  Its body is the content read, its content type is
    [application/pdf], and its URL is the probed URL followed by
    [:/content]. *)
Theorem upload_pdf_sends_file_content (fuel : nat)
    (access_token drive_id folder_name pdf_file_name pdf_file_path : string)
    (w : World) (rq : request) (o : outcome) :
  In (EvHttp rq o)
     (trace_of (upload_pdf (S fuel) access_token drive_id folder_name
                  pdf_file_name pdf_file_path w)) ->
  req_method rq = PUT ->
  exists probe r content,
    trace_of (upload_pdf (S fuel) access_token drive_id folder_name
                pdf_file_name pdf_file_path w)
    = [EvHttp probe (Responded r);
       EvRead pdf_file_path (Some content);
       EvHttp rq o] /\
    req_method probe = GET /\
    status_code r <> 200 /\ status_code r <> 401 /\
    req_body rq = RawBody content /\
    req_headers rq = [("Authorization", "Bearer " ++ access_token);
                      ("Content-Type", "application/pdf")] /\
    req_url rq = (req_url probe ++ ":/content")%string.
Proof.
  on_run pdf_file_name; on_upload_event Hin; try discriminate;
    do 3 eexists; (split; [reflexivity|]); status_facts;
    repeat (split; [solve [reflexivity|assumption]|]);
    cbn [req_url]; unfold upload_url, check_url;
    now rewrite !append_assoc.
Qed.

(** X16.  The local file is read only after a probe that was answered with a
    status other than 200 and 401, and the file read is [pdf_file_path]. *)
Theorem upload_pdf_reads_after_probe (fuel : nat)
    (access_token drive_id folder_name pdf_file_name pdf_file_path : string)
    (w : World) (path : string) (content : option string) :
  In (EvRead path content)
     (trace_of (upload_pdf (S fuel) access_token drive_id folder_name
                  pdf_file_name pdf_file_path w)) ->
  path = pdf_file_path /\
  exists probe r,
    hd_error (trace_of (upload_pdf (S fuel) access_token drive_id folder_name
                          pdf_file_name pdf_file_path w))
    = Some (EvHttp probe (Responded r)) /\
    req_method probe = GET /\
    status_code r <> 200 /\ status_code r <> 401.
Proof.
  on_run pdf_file_name; on_upload_event Hin;
    (split; [reflexivity|]); do 2 eexists; (split; [reflexivity|]);
    status_facts; repeat split; solve [reflexivity|assumption].
Qed.

(** X17.  An upload answered with a status outside 4xx and 5xx and a JSON object:
    the call prints the [webUrl] of the object ([None] when it has none)
    and returns [(webUrl, False)] when the standard output takes the text.
    When the text is refused the handler runs, although the file is stored:
    [(None, False)] when the standard output takes the failure message, the
    exception of the [print] when it refuses it. *)
Theorem upload_pdf_uploaded (fuel : nat)
    (access_token drive_id folder_name pdf_file_name pdf_file_path : string)
    (w : World) (rq : request) (r : response) (d : list (string * json))
    (url : json) :
  In (EvHttp rq (Responded r))
     (trace_of (upload_pdf (S fuel) access_token drive_id folder_name
                  pdf_file_name pdf_file_path w)) ->
  req_method rq = PUT ->
  ~ (400 <= status_code r < 600) ->
  body_json r = Some (JObj d) ->
  assoc "webUrl" d = Some url \/ assoc "webUrl" d = None /\ url = JNull ->
  (stdout_takes (PrValue url) ->
   result_of (upload_pdf (S fuel) access_token drive_id folder_name
                pdf_file_name pdf_file_path w) = Some (Return (url, false))) /\
  (stdout_refuses (PrValue url) ->
   exists v,
     result_of (upload_pdf (S fuel) access_token drive_id folder_name
                  pdf_file_name pdf_file_path w) = Some v /\
     falls_back "Failed to upload PDF file: " (JNull, false) v) /\
  (exists v,
     result_of (upload_pdf (S fuel) access_token drive_id folder_name
                  pdf_file_name pdf_file_path w) = Some v /\
     (v = Return (url, false) \/
      falls_back "Failed to upload PDF file: " (JNull, false) v)).
Proof.
  on_run pdf_file_name; on_upload_event Hin; intros; settle.
  all: split; [intros Hstd; settle|].
  all: split;
    [ intros Hstd; try (exfalso; stdout_facts);
      eexists; (split; [reflexivity|]); settle_handler
    | eexists; (split; [reflexivity|]);
      first [ left; reflexivity | right; settle_handler ] ].
Qed.

(** X18.  An upload that is refused with a 4xx or 5xx status other than 401, or
    whose answer is not JSON (in the second case also when the status says
    that the file was stored), sends the call to its handler: it returns
    [(None, False)] when the standard output takes the failure message, and
    the exception of the [print] leaves it when the message is refused. *)
Theorem upload_pdf_upload_not_confirmed (fuel : nat)
    (access_token drive_id folder_name pdf_file_name pdf_file_path : string)
    (w : World) (rq : request) (r : response) :
  In (EvHttp rq (Responded r))
     (trace_of (upload_pdf (S fuel) access_token drive_id folder_name
                  pdf_file_name pdf_file_path w)) ->
  req_method rq = PUT ->
  status_code r <> 401 ->
  (400 <= status_code r < 600 \/ body_json r = None) ->
  exists v,
    result_of (upload_pdf (S fuel) access_token drive_id folder_name
                 pdf_file_name pdf_file_path w) = Some v /\
    falls_back "Failed to upload PDF file: " (JNull, false) v.
Proof.
  on_run pdf_file_name; on_upload_event Hin; intros; settle;
    eexists; (split; [reflexivity|]); settle_handler.
Qed.

(** X19.  When the local file cannot be read, or the PUT cannot be sent,
    upload_pdf raises [UnboundLocalError] from its handler. *)
Theorem upload_pdf_handler_unbound (fuel : nat)
    (access_token drive_id folder_name pdf_file_name pdf_file_path : string)
    (w : World) (e : event) :
  In e (trace_of (upload_pdf (S fuel) access_token drive_id folder_name
                    pdf_file_name pdf_file_path w)) ->
  (e = EvRead pdf_file_path None \/
   exists rq, e = EvHttp rq TransportFailure /\ req_method rq = PUT) ->
  result_of (upload_pdf (S fuel) access_token drive_id folder_name
               pdf_file_name pdf_file_path w) = Some (Raise UnboundLocalError).
Proof.
  on_run pdf_file_name; intros Hin Hcase; pick_event Hin; subst e; settle.
Qed.

(** X20.  The flag of the returned pair is raised by a 401 only: a result
    [(v, True)] has [v = None], and the last request of the call was
    answered 401. *)
Theorem upload_pdf_flag_means_401 (fuel : nat)
    (access_token drive_id folder_name pdf_file_name pdf_file_path : string)
    (w : World) (v : json) :
  result_of (upload_pdf (S fuel) access_token drive_id folder_name
               pdf_file_name pdf_file_path w) = Some (Return (v, true)) ->
  v = JNull /\
  exists pre rq r,
    trace_of (upload_pdf (S fuel) access_token drive_id folder_name
                pdf_file_name pdf_file_path w)
    = (pre ++ [EvHttp rq (Responded r)])%list /\
    status_code r = 401.
Proof.
  on_run pdf_file_name; intros Hres; try discriminate Hres;
    injection Hres as <-; (split; [reflexivity|]); status_facts.
  all: first
    [ exists []; do 2 eexists; split; [reflexivity|assumption]
    | eexists [_; _]; do 2 eexists; split; [reflexivity|assumption] ].
Qed.

(** *** The module body *)

(** X25.  The module body sends the token POST and then the POST that creates
    [TestingAptify2] in the drive, with the value returned by
    get_access_token as the bearer, whatever the first request gave.  The
    only exception that can end the module body is the one of a [print] in
    a handler; when it is raised in get_access_token the second request is
    not sent.  When the standard output takes the two failure messages the
    module body sends both requests and ends without an exception. *)
Theorem run_module_two_posts (other : json -> string)
    (client_id client_secret : string) (tenant_id drive_id : option string)
    (w : World) :
  exists o1,
    (value_of (get_access_token (env_str tenant_id) client_id client_secret w)
     = Raise StdoutError /\
     value_of (run_module other client_id client_secret tenant_id drive_id w)
     = Raise StdoutError /\
     events_of (run_module other client_id client_secret tenant_id drive_id w)
     = [EvHttp
          (mkRequest POST
             ("https://login.microsoftonline.com/" ++ env_str tenant_id
                ++ "/oauth2/v2.0/token")
             []
             (FormBody [("client_id", client_id);
                        ("client_secret", client_secret);
                        ("scope", "https://graph.microsoft.com/.default");
                        ("grant_type", "client_credentials")]))
          o1] /\
     ~ (forall e, stdout_takes (PrFailure "Failed to obtain access token: " e)))
    \/
    (exists o2 token,
       value_of (get_access_token (env_str tenant_id) client_id client_secret w)
       = Return token /\
       events_of (run_module other client_id client_secret tenant_id drive_id w)
       = [EvHttp
            (mkRequest POST
               ("https://login.microsoftonline.com/" ++ env_str tenant_id
                  ++ "/oauth2/v2.0/token")
               []
               (FormBody [("client_id", client_id);
                          ("client_secret", client_secret);
                          ("scope", "https://graph.microsoft.com/.default");
                          ("grant_type", "client_credentials")]))
            o1;
          EvHttp
            (mkRequest POST
               ("https://graph.microsoft.com/v1.0/drives/" ++ env_str drive_id
                  ++ "/root/children")
               [("Authorization", "Bearer " ++ py_str other token);
                ("Content-Type", "application/json")]
               (JsonBody
                  (JObj [("name", JStr "TestingAptify2");
                         ("folder", JObj []);
                         ("@microsoft.graph.conflictBehavior", JStr "rename")])))
            o2] /\
       (value_of (run_module other client_id client_secret tenant_id drive_id w)
        = Return tt \/
        value_of (run_module other client_id client_secret tenant_id drive_id w)
        = Raise StdoutError /\
        ~ (forall e, stdout_takes (PrFailure "Failed to create folder: " e)))).
Proof.
  unfold run_module. on_script; eexists.
  all: first
    [ right; do 2 eexists; split; [reflexivity|]; split; [reflexivity|];
      first [ left; reflexivity
            | right; split; [reflexivity|]; intros Hstd; stdout_facts ]
    | left; split; [reflexivity|]; split; [reflexivity|];
      split; [reflexivity|]; intros Hstd; stdout_facts ].
Qed.

(** X26.  When the token request fails (no connection, or a 4xx or 5xx status)
    and the standard output takes the failure message, the module body
    still sends the folder request, with the header
    [Authorization: Bearer None]. *)
Theorem run_module_without_token (other : json -> string)
    (client_id client_secret : string) (tenant_id drive_id : option string)
    (w : World) (rq : request) (o : outcome) :
  hd_error (events_of (run_module other client_id client_secret tenant_id
                         drive_id w)) = Some (EvHttp rq o) ->
  (o = TransportFailure \/
   exists r, o = Responded r /\ 400 <= status_code r < 600) ->
  (forall e, stdout_takes (PrFailure "Failed to obtain access token: " e)) ->
  exists rq2 o2,
    events_of (run_module other client_id client_secret tenant_id drive_id w)
    = [EvHttp rq o; EvHttp rq2 o2] /\
    req_method rq2 = POST /\
    req_headers rq2 = [("Authorization", "Bearer None");
                       ("Content-Type", "application/json")].
Proof.
  unfold run_module. on_script; cbn [hd_error]; intros Hhd Hfail Hstd;
    injection Hhd; clear Hhd; intros; settle;
    do 2 eexists; repeat split; reflexivity.
Qed.

End ComponentFacts.

(** ** Runs in the scripted world *)

Example upload_pdf_fresh_file :
  upload_pdf 1 "token" "drive" "Test2" "a.pdf" "C:/out/a.pdf" world_upload_ok
  = Some (Return (JStr "https://sp/Test2/a.pdf", false),
          mkScripted [] [("C:/out/a.pdf", "%PDF"%string)],
          [EvHttp sample_probe (reply 404 None);
           EvRead "C:/out/a.pdf" (Some "%PDF"%string);
           EvHttp sample_put
             (reply 201 (Some (JObj [("webUrl", JStr "https://sp/Test2/a.pdf")])))]).
Proof. reflexivity. Qed.

Example upload_pdf_no_extension :
  upload_pdf 1 "token" "drive" "Test2" "README" "C:/out/README" world_upload_ok
  = Some (Raise ValueError, world_upload_ok, []).
Proof. reflexivity. Qed.

Example upload_pdf_out_of_fuel :
  upload_pdf 0 "token" "drive" "Test2" "a.pdf" "C:/out/a.pdf" world_upload_ok = None.
Proof. reflexivity. Qed.

Example create_folder_forbidden :
  value_of (create_folder "token" "drive" "TestingAptify2"
              (mkScripted [reply 403 None] []))
  = Return JNull.
Proof. reflexivity. Qed.

(** C1, as stated, fails: a probe answered 200 does not always make the call
    return a pair.  With a body that is not JSON, [response.json()] raises
    outside any [try]; with a standard output that refuses the text, so
    does the [print] of the URL found. *)
Lemma upload_pdf_probe_200_raises :
  (In (EvHttp sample_probe (reply 200 None))
      (trace_of (upload_pdf 1 "token" "drive" "Test2" "a.pdf" "C:/out/a.pdf"
                   (world_answers 200 None))) /\
   is_probe (EvHttp sample_probe (reply 200 None)) = true /\
   answered_with 200 (EvHttp sample_probe (reply 200 None)) = true /\
   result_of (upload_pdf 1 "token" "drive" "Test2" "a.pdf" "C:/out/a.pdf"
                (world_answers 200 None))
   = Some (Raise JSONDecodeError)) /\
  (In (EvHttp sample_probe
         (reply 200 (Some (JObj [("webUrl", JStr "https://sp/Test2/a.pdf")]))))
      (trace_of (upload_pdf 1 "token" "drive" "Test2" "a.pdf" "C:/out/a.pdf"
                   (mkConsole takes_nothing world_file_exists))) /\
   answered_with 200
     (EvHttp sample_probe
        (reply 200 (Some (JObj [("webUrl", JStr "https://sp/Test2/a.pdf")]))))
   = true /\
   result_of (upload_pdf 1 "token" "drive" "Test2" "a.pdf" "C:/out/a.pdf"
                (mkConsole takes_nothing world_file_exists))
   = Some (Raise StdoutError)).
Proof.
  split; (split; [left; reflexivity|]); repeat split; reflexivity.
Qed.

Lemma upload_pdf_existing_file_witness :
  trace_of (upload_pdf 1 "token" "drive" "Test2" "a.pdf" "C:/out/a.pdf"
              world_file_exists)
  = [EvHttp sample_probe
       (reply 200 (Some (JObj [("webUrl", JStr "https://sp/Test2/a.pdf")])))] /\
  result_of (upload_pdf 1 "token" "drive" "Test2" "a.pdf" "C:/out/a.pdf"
               world_file_exists)
  = Some (Return (JStr "https://sp/Test2/a.pdf", false)) /\
  result_of (upload_pdf 1 "token" "drive" "Test2" "a.pdf" "C:/out/a.pdf"
               (mkConsole takes_nothing world_file_exists))
  = Some (Raise StdoutError).
Proof.
  split; [|split].
  - apply (upload_pdf_existing_file 0 "token" "drive" "Test2" "a.pdf"
             "C:/out/a.pdf" world_file_exists
             (EvHttp sample_probe
                (reply 200 (Some (JObj [("webUrl", JStr "https://sp/Test2/a.pdf")])))));
      [left; reflexivity | reflexivity | reflexivity].
  - destruct (upload_pdf_existing_file 0 "token" "drive" "Test2" "a.pdf"
                "C:/out/a.pdf" world_file_exists
                (EvHttp sample_probe
                   (reply 200 (Some (JObj [("webUrl", JStr "https://sp/Test2/a.pdf")])))))
      as (_ & _ & rq & r & Hanswer & Hobject & _);
      [left; reflexivity | reflexivity | reflexivity |].
    injection Hanswer as <- <-.
    apply (Hobject [("webUrl", JStr "https://sp/Test2/a.pdf")]
             (JStr "https://sp/Test2/a.pdf"));
      [reflexivity | left; reflexivity | intros w; reflexivity].
  - destruct (upload_pdf_existing_file 0 "token" "drive" "Test2" "a.pdf"
                "C:/out/a.pdf" (mkConsole takes_nothing world_file_exists)
                (EvHttp sample_probe
                   (reply 200 (Some (JObj [("webUrl", JStr "https://sp/Test2/a.pdf")])))))
      as (_ & _ & rq & r & Hanswer & Hobject & _);
      [left; reflexivity | reflexivity | reflexivity |].
    injection Hanswer as <- <-.
    apply (Hobject [("webUrl", JStr "https://sp/Test2/a.pdf")]
             (JStr "https://sp/Test2/a.pdf"));
      [reflexivity | left; reflexivity | intros w; reflexivity].
Defined.

Lemma upload_pdf_auth_expired_witness :
  result_of (upload_pdf 1 "token" "drive" "Test2" "a.pdf" "C:/out/a.pdf"
               world_token_expired)
  = Some (Return (JNull, true)) /\
  @nil event = [] /\
  (is_probe (EvHttp sample_put (reply 401 None)) = true \/
   is_upload (EvHttp sample_put (reply 401 None)) = true).
Proof.
  apply (upload_pdf_auth_expired 0 "token" "drive" "Test2" "a.pdf"
           "C:/out/a.pdf" world_token_expired
           [EvHttp sample_probe (reply 404 None);
            EvRead "C:/out/a.pdf" (Some "%PDF"%string)]
           [] (EvHttp sample_put (reply 401 None)));
    reflexivity.
Defined.

Lemma upload_pdf_target_witness :
  req_url sample_put
  = ("https://graph.microsoft.com/v1.0/drives/" ++ "drive" ++ "/root:/"
       ++ "Test2" ++ "/" ++ "a.pdf" ++ ":/content")%string.
Proof.
  apply (upload_pdf_target 0 "token" "drive" "Test2" "a.pdf" "C:/out/a.pdf"
           world_upload_ok sample_put
           (reply 201 (Some (JObj [("webUrl", JStr "https://sp/Test2/a.pdf")]))));
    [right; right; left; reflexivity | reflexivity].
Defined.

Lemma upload_pdf_split_succeeds_witness :
  (exists base_filename file_extension,
     PyStr.rsplit1 "." "a.pdf" = [base_filename; file_extension] /\
     "a.pdf"%string = (base_filename ++ "." ++ file_extension)%string /\
     PyStr.contains "." file_extension = false) /\
  (exists e,
     hd_error (trace_of (upload_pdf 1 "token" "drive" "Test2" "a.pdf"
                           "C:/out/a.pdf" world_upload_ok)) = Some e /\
     is_probe e = true).
Proof.
  apply (upload_pdf_split_succeeds 0 "token" "drive" "Test2" "a.pdf"
           "C:/out/a.pdf" world_upload_ok).
  reflexivity.
Defined.

(** C4 fails on the code.  The probe finds no file (404) and the local file
    cannot be read: the handler of [upload_pdf] reads [upload_response],
    which was never bound, and the exception leaves the function. *)
Theorem upload_pdf_unreadable_file_raises :
  result_of (upload_pdf 1 "token" "drive" "Test2" "a.pdf" "C:/out/a.pdf"
               world_file_missing)
  = Some (Raise UnboundLocalError) /\
  trace_of (upload_pdf 1 "token" "drive" "Test2" "a.pdf" "C:/out/a.pdf"
              world_file_missing)
  = [EvHttp sample_probe (reply 404 None); EvRead "C:/out/a.pdf" None].
Proof. split; reflexivity. Qed.

(** C3, as stated, fails.  A response outside 2xx that is no client or
    server error (here 300) passes [raise_for_status], and the [webUrl] of
    its body is returned.  And a refused request (here 403) does not give
    [None] when the standard output refuses the failure message: the
    exception of the [print] in the handler leaves the function. *)
Lemma create_folder_multiple_choices_not_null :
  (In (EvHttp sample_create
         (reply 300 (Some (JObj [("webUrl", JStr "https://sp/TestingAptify2")]))))
      (events_of (create_folder "token" "drive" "TestingAptify2"
                    world_folder_multiple_choices)) /\
   ~ (200 <= 300 < 300) /\
   value_of (create_folder "token" "drive" "TestingAptify2"
               world_folder_multiple_choices)
   = Return (JStr "https://sp/TestingAptify2") /\
   value_of (create_folder "token" "drive" "TestingAptify2"
               world_folder_multiple_choices)
   <> Return JNull) /\
  (In (EvHttp sample_create (reply 403 None))
      (events_of (create_folder "token" "drive" "TestingAptify2"
                    (mkConsole takes_nothing (world_answers 403 None)))) /\
   ~ (200 <= 403 < 300) /\
   value_of (create_folder "token" "drive" "TestingAptify2"
               (mkConsole takes_nothing (world_answers 403 None)))
   = Raise StdoutError).
Proof.
  split.
  - split; [left; reflexivity|]. split; [lia|].
    split; [reflexivity|discriminate].
  - split; [left; reflexivity|]. split; [lia|reflexivity].
Qed.

Lemma create_folder_result_witness :
  value_of (create_folder "token" "drive" "TestingAptify2" world_folder_created)
  = Return (JStr "https://sp/TestingAptify2") /\
  value_of (create_folder "token" "drive" "TestingAptify2" (world_answers 403 None))
  = Return JNull /\
  value_of (create_folder "token" "drive" "TestingAptify2"
              (mkConsole takes_nothing world_offline))
  = Raise StdoutError.
Proof.
  split; [|split].
  - refine (proj1
      (create_folder_result "token" "drive" "TestingAptify2"
         world_folder_created sample_create
         (reply 201 (Some (JObj [("webUrl", JStr "https://sp/TestingAptify2")])))
         _)
      _ [("webUrl", JStr "https://sp/TestingAptify2")]
      (JStr "https://sp/TestingAptify2") eq_refl eq_refl).
    + left; reflexivity.
    + cbn; lia.
  - refine (proj1 (proj2
      (proj2
         (create_folder_result "token" "drive" "TestingAptify2"
            (world_answers 403 None) sample_create (reply 403 None) _)
         _)) _).
    + left; reflexivity.
    + cbn; lia.
    + intros e w; reflexivity.
  - refine (proj2 (proj2
      (create_folder_result "token" "drive" "TestingAptify2"
         (mkConsole takes_nothing world_offline) sample_create TransportFailure _))
      _).
    + left; reflexivity.
    + intros e w; reflexivity.
Defined.

(** C10, as stated, fails.  With a standard output that refuses the decoded
    body, the [print] before [raise_for_status] raises inside the [try],
    and a 2xx answer that lists drives gives [None].  With a standard
    output that refuses the failure message as well, an answer with an
    empty [value] does not give [None]: the exception of the [print] in the
    handler leaves the function. *)
Lemma get_shared_documents_drive_id_print_refused :
  (In (EvHttp sample_drives
         (reply 200
            (Some (JObj [("value", JArr [JObj [("id", JStr "b!drive1")];
                                         JObj [("id", JStr "b!drive2")]])]))))
      (events_of (get_shared_documents_drive_id "token"
                    "https://graph.microsoft.com/v1.0/sites/site/drives"
                    (mkConsole takes_messages world_one_drive))) /\
   200 <= 200 < 300 /\
   value_of (get_shared_documents_drive_id "token"
               "https://graph.microsoft.com/v1.0/sites/site/drives"
               (mkConsole takes_messages world_one_drive))
   = Return JNull /\
   value_of (get_shared_documents_drive_id "token"
               "https://graph.microsoft.com/v1.0/sites/site/drives"
               (mkConsole takes_messages world_one_drive))
   <> Return (JStr "b!drive1")) /\
  (In (EvHttp sample_drives (reply 200 (Some (JObj [("value", JArr [])]))))
      (events_of (get_shared_documents_drive_id "token"
                    "https://graph.microsoft.com/v1.0/sites/site/drives"
                    (mkConsole takes_nothing
                       (world_answers 200 (Some (JObj [("value", JArr [])])))))) /\
   value_of (get_shared_documents_drive_id "token"
               "https://graph.microsoft.com/v1.0/sites/site/drives"
               (mkConsole takes_nothing
                  (world_answers 200 (Some (JObj [("value", JArr [])])))))
   = Raise StdoutError).
Proof.
  split.
  - split; [left; reflexivity|]. split; [lia|].
    split; [reflexivity|discriminate].
  - split; [left; reflexivity|reflexivity].
Qed.

Lemma get_shared_documents_drive_id_result_witness :
  value_of (get_shared_documents_drive_id "token"
              "https://graph.microsoft.com/v1.0/sites/site/drives" world_one_drive)
  = Return (JStr "b!drive1") /\
  value_of (get_shared_documents_drive_id "token"
              "https://graph.microsoft.com/v1.0/sites/site/drives"
              (mkConsole takes_messages world_one_drive))
  = Return JNull /\
  value_of (get_shared_documents_drive_id "token"
              "https://graph.microsoft.com/v1.0/sites/site/drives"
              (world_answers 200 (Some (JObj [("value", JArr [])]))))
  = Return JNull /\
  value_of (get_shared_documents_drive_id "token"
              "https://graph.microsoft.com/v1.0/sites/site/drives"
              (mkConsole takes_nothing
                 (world_answers 200 (Some (JObj [("value", JArr [])])))))
  = Raise StdoutError.
Proof.
  split; [|split; [|split]].
  - refine (proj1
      (proj1
         (get_shared_documents_drive_id_result "token"
            "https://graph.microsoft.com/v1.0/sites/site/drives" world_one_drive
            sample_drives
            (mkResponse 200
               (Some (JObj [("value", JArr [JObj [("id", JStr "b!drive1")];
                                            JObj [("id", JStr "b!drive2")]])])))
            _)
         _ [("value", JArr [JObj [("id", JStr "b!drive1")];
                            JObj [("id", JStr "b!drive2")]])]
         [("id", JStr "b!drive1")] [JObj [("id", JStr "b!drive2")]]
         (JStr "b!drive1") eq_refl eq_refl eq_refl) _).
    + left; reflexivity.
    + cbn; lia.
    + intros w; reflexivity.
  - refine (proj1 (proj2
      (proj1 (proj2
         (proj1
            (get_shared_documents_drive_id_result "token"
               "https://graph.microsoft.com/v1.0/sites/site/drives"
               (mkConsole takes_messages world_one_drive)
               sample_drives
               (mkResponse 200
                  (Some (JObj [("value", JArr [JObj [("id", JStr "b!drive1")];
                                               JObj [("id", JStr "b!drive2")]])])))
               _)
            _ [("value", JArr [JObj [("id", JStr "b!drive1")];
                               JObj [("id", JStr "b!drive2")]])]
            [("id", JStr "b!drive1")] [JObj [("id", JStr "b!drive2")]]
            (JStr "b!drive1") eq_refl eq_refl eq_refl)) _)) _).
    + left; reflexivity.
    + cbn; lia.
    + intros w; reflexivity.
    + intros e w; reflexivity.
  - refine (proj1 (proj2
      (proj2
         (get_shared_documents_drive_id_result "token"
            "https://graph.microsoft.com/v1.0/sites/site/drives"
            (world_answers 200 (Some (JObj [("value", JArr [])])))
            sample_drives
            (mkResponse 200 (Some (JObj [("value", JArr [])])))
            _)
         [("value", JArr [])] eq_refl (or_intror eq_refl))) _).
    + left; reflexivity.
    + intros e w; reflexivity.
  - refine (proj2 (proj2
      (proj2
         (get_shared_documents_drive_id_result "token"
            "https://graph.microsoft.com/v1.0/sites/site/drives"
            (mkConsole takes_nothing
               (world_answers 200 (Some (JObj [("value", JArr [])]))))
            sample_drives
            (mkResponse 200 (Some (JObj [("value", JArr [])])))
            _)
         [("value", JArr [])] eq_refl (or_intror eq_refl))) _).
    + left; reflexivity.
    + intros e w; reflexivity.
Defined.

(** ** More on get_network_link *)

Module LinkFacts.
Import PyStr.

Lemma length_append (x y : string) :
  String.length (x ++ y) = (String.length x + String.length y)%nat.
Proof. induction x as [|c x IH]; cbn; [reflexivity|now rewrite IH]. Qed.

Lemma prefix_length (p s : string) :
  prefix p s = true -> (String.length p <= String.length s)%nat.
Proof.
  revert s. induction p as [|a p IH]; intros [|c s] Hp; cbn; try lia.
  - discriminate.
  - rewrite PyStrFacts.prefix_cons in Hp. apply andb_true_iff in Hp as [_ Hp].
    apply IH in Hp. lia.
Qed.

(** The characters of a matched occurrence are dropped. *)
Lemma replace_from_drop (old new x s : string) :
  replace_from old new (String.length x) (x ++ s) = replace_from old new 0 s.
Proof. induction x as [|c x IH]; [reflexivity|exact IH]. Qed.

Lemma replace_at_occurrence (a : ascii) (old new s : string) :
  replace (String a old) new (String a old ++ s)
  = (new ++ replace (String a old) new s)%string.
Proof.
  unfold replace.
  change (String a old ++ s)%string with (String a (old ++ s)).
  rewrite PyStrFacts.replace_from_here.
  change (String a (old ++ s)) with (String a old ++ s)%string.
  rewrite PyStrFacts.prefix_append. cbn [String.length].
  now rewrite replace_from_drop.
Qed.

(** A replacement by a text that is not longer than the one replaced does
    not lengthen the string. *)
Lemma replace_from_length (a : ascii) (old new : string) :
  (String.length new <= S (String.length old))%nat ->
  forall (s : string) (k : nat),
    (String.length (replace_from (String a old) new k s)
       + Nat.min k (String.length s) <= String.length s)%nat.
Proof.
  intros Hnew. induction s as [|c s IH]; intros [|k].
  - cbn. lia.
  - cbn. lia.
  - rewrite PyStrFacts.replace_from_here.
    destruct (prefix (String a old) (String c s)) eqn:Hp.
    + apply prefix_length in Hp. cbn [String.length] in *.
      rewrite length_append. specialize (IH (String.length old)). lia.
    + cbn [String.length]. specialize (IH 0%nat). lia.
  - rewrite PyStrFacts.replace_from_skip. cbn [String.length].
    specialize (IH k). lia.
Qed.

Lemma replace_length (a : ascii) (old new s : string) :
  (String.length new <= S (String.length old))%nat ->
  (String.length (replace (String a old) new s) <= String.length s)%nat.
Proof.
  intros Hnew. pose proof (replace_from_length a old new Hnew s 0). unfold replace.
  lia.
Qed.

End LinkFacts.

(** X21.  For every input string, under the known prefix or not, the result of
    [get_network_link] starts with the network share prefix and holds no
    forward slash and no [%20]. *)
Theorem get_network_link_always_clean (sharepoint_link : string) :
  prefix network_prefix (get_network_link sharepoint_link) = true /\
  PyStr.contains "/" (get_network_link sharepoint_link) = false /\
  PyStr.contains "%20" (get_network_link sharepoint_link) = false.
Proof.
  unfold get_network_link, PyStr.replace. repeat split.
  - apply PyStrFacts.prefix_append.
  - apply network_prefix_slash_free, PyStrFacts.backslashed_no_slash.
  - apply network_prefix_clean, PyStrFacts.backslashed_keeps_clean,
      PyStrFacts.decode_clean.
Qed.

(** X22.  The known prefix at the head of the input is removed before anything
    else: putting it in front of any string does not change the result. *)
Theorem get_network_link_strips_prefix (rest : string) :
  get_network_link (sharepoint_prefix ++ rest) = get_network_link rest.
Proof.
  unfold get_network_link, sharepoint_prefix.
  now rewrite LinkFacts.replace_at_occurrence.
Qed.

(** X23.  When the part after the known prefix does not hold the prefix
    again, the result is the network prefix followed by that part with
    every [%20] decoded and every slash turned. *)
Theorem get_network_link_relative_path (rest : string) :
  PyStr.contains sharepoint_prefix rest = false ->
  get_network_link (sharepoint_prefix ++ rest)
  = (network_prefix ++ PyStr.replace "/" "\" (PyStr.replace "%20" " " rest))%string.
Proof.
  intros Hrest. unfold get_network_link, sharepoint_prefix.
  rewrite LinkFacts.replace_at_occurrence.
  fold sharepoint_prefix. now rewrite (PyStrFacts.replace_absent _ _ _ Hrest).
Qed.

Lemma get_network_link_relative_path_witness :
  get_network_link (sharepoint_prefix ++ "Test2/Bob%20Smith_Transcript_1.pdf")
  = (network_prefix
       ++ PyStr.replace "/" "\"
            (PyStr.replace "%20" " " "Test2/Bob%20Smith_Transcript_1.pdf"))%string.
Proof.
  apply (get_network_link_relative_path "Test2/Bob%20Smith_Transcript_1.pdf").
  reflexivity.
Defined.

(** X24.  No replacement lengthens the text, so the result is never longer
    than the network prefix followed by the input. *)
Theorem get_network_link_length (sharepoint_link : string) :
  (String.length (get_network_link sharepoint_link)
   <= String.length network_prefix + String.length sharepoint_link)%nat.
Proof.
  unfold get_network_link. rewrite LinkFacts.length_append.
  apply Nat.add_le_mono_l.
  etransitivity; [apply LinkFacts.replace_length; cbn; lia|].
  etransitivity; [apply LinkFacts.replace_length; cbn; lia|].
  unfold sharepoint_prefix. apply LinkFacts.replace_length. cbn. lia.
Qed.

(** ** More runs in the scripted world *)

Lemma get_access_token_failure_witness :
  value_of (get_access_token "tenant" "client" "secret" (world_answers 401 None))
  = Return JNull.
Proof.
  refine (proj1 (proj2
    (get_access_token_failure "tenant" "client" "secret"
       (world_answers 401 None) sample_token (reply 401 None) _ _)) _).
  - left; reflexivity.
  - right. exists (mkResponse 401 None). split; [reflexivity|]. left. cbn. lia.
  - intros e w; reflexivity.
Defined.

Lemma get_access_token_success_witness :
  (forall token,
     assoc "access_token" [("access_token", JStr "eyJ0eXAi")] = Some token ->
     value_of (get_access_token "tenant" "client" "secret"
                 (world_answers 200
                    (Some (JObj [("access_token", JStr "eyJ0eXAi")]))))
     = Return token) /\
  (assoc "access_token" [("access_token", JStr "eyJ0eXAi")] = None ->
     value_of (get_access_token "tenant" "client" "secret"
                 (world_answers 200
                    (Some (JObj [("access_token", JStr "eyJ0eXAi")]))))
     = Return JNull).
Proof.
  apply (get_access_token_success "tenant" "client" "secret"
           (world_answers 200 (Some (JObj [("access_token", JStr "eyJ0eXAi")])))
           sample_token
           (mkResponse 200 (Some (JObj [("access_token", JStr "eyJ0eXAi")])))).
  - left; reflexivity.
  - cbn. lia.
  - reflexivity.
Defined.

Lemma get_site_id_answer_witness :
  value_of (get_site_id "token"
              "https://graph.microsoft.com/v1.0/sites/nbcrna.sharepoint.com:/sites/AptifyAttachment"
              (world_answers 200 (Some (JObj [("id", JStr "site-1")]))))
  = Return (JStr "site-1") /\
  value_of (get_site_id "token"
              "https://graph.microsoft.com/v1.0/sites/nbcrna.sharepoint.com:/sites/AptifyAttachment"
              world_offline)
  = Return JNull.
Proof.
  split.
  - refine (proj1
      (proj2
         (get_site_id_answer "token"
            "https://graph.microsoft.com/v1.0/sites/nbcrna.sharepoint.com:/sites/AptifyAttachment"
            (world_answers 200 (Some (JObj [("id", JStr "site-1")])))
            sample_site (reply 200 (Some (JObj [("id", JStr "site-1")]))) _)
         (mkResponse 200 (Some (JObj [("id", JStr "site-1")])))
         [("id", JStr "site-1")] eq_refl _ eq_refl)
      (JStr "site-1") eq_refl).
    + left; reflexivity.
    + cbn. lia.
  - refine (proj1 (proj2
      (proj1
         (get_site_id_answer "token"
            "https://graph.microsoft.com/v1.0/sites/nbcrna.sharepoint.com:/sites/AptifyAttachment"
            world_offline sample_site TransportFailure _)
         (or_introl eq_refl))) _).
    + left; reflexivity.
    + intros e w; reflexivity.
Defined.

Lemma get_shared_documents_drive_id_failure_witness :
  value_of (get_shared_documents_drive_id "token"
              "https://graph.microsoft.com/v1.0/sites/site/drives"
              (world_answers 403
                 (Some (JObj [("value", JArr [JObj [("id", JStr "b!drive1")]])]))))
  = Return JNull.
Proof.
  refine (proj1 (proj2
    (get_shared_documents_drive_id_failure "token"
       "https://graph.microsoft.com/v1.0/sites/site/drives"
       (world_answers 403
          (Some (JObj [("value", JArr [JObj [("id", JStr "b!drive1")]])])))
       sample_drives
       (reply 403
          (Some (JObj [("value", JArr [JObj [("id", JStr "b!drive1")]])])))
       _ _)) _).
  - left; reflexivity.
  - right. eexists. split; [reflexivity|]. left. cbn. lia.
  - intros e w; reflexivity.
Defined.

Lemma get_shared_documents_drive_id_malformed_witness :
  value_of (get_shared_documents_drive_id "token"
              "https://graph.microsoft.com/v1.0/sites/site/drives"
              (world_answers 200
                 (Some (JObj [("value", JArr [JObj [("name", JStr "Documents")]])]))))
  = Return JNull.
Proof.
  refine (proj1 (proj2
    (get_shared_documents_drive_id_malformed "token"
       "https://graph.microsoft.com/v1.0/sites/site/drives"
       (world_answers 200
          (Some (JObj [("value", JArr [JObj [("name", JStr "Documents")]])])))
       sample_drives
       (mkResponse 200
          (Some (JObj [("value", JArr [JObj [("name", JStr "Documents")]])])))
       [("value", JArr [JObj [("name", JStr "Documents")]])]
       (JArr [JObj [("name", JStr "Documents")]])
       _ eq_refl eq_refl _)) _).
  - left; reflexivity.
  - right; right; right. do 2 eexists. split; reflexivity.
  - intros e w; reflexivity.
Defined.

Lemma list_folders_in_drive_writes_value_witness :
  (exists rq r d,
     events_of (list_folders_in_drive "token"
                  "https://graph.microsoft.com/v1.0/drives/drive/root/children"
                  (world_answers 200 (Some (JObj [("value", JArr [JStr "Test2"])]))))
     = [EvHttp rq (Responded r);
        EvWrite "folders_data_value.json" (JArr [JStr "Test2"]) true] /\
     ~ (400 <= status_code r < 600) /\
     body_json r = Some (JObj d) /\
     assoc "value" d = Some (JArr [JStr "Test2"])) /\
  value_of (list_folders_in_drive "token"
              "https://graph.microsoft.com/v1.0/drives/drive/root/children"
              (world_answers 200 (Some (JObj [("value", JArr [JStr "Test2"])]))))
  = Return tt.
Proof.
  destruct (list_folders_in_drive_writes_value "token"
              "https://graph.microsoft.com/v1.0/drives/drive/root/children"
              (world_answers 200 (Some (JObj [("value", JArr [JStr "Test2"])])))
              "folders_data_value.json" (JArr [JStr "Test2"]) true)
    as (_ & Hevents & Hsaved & _);
    [right; left; reflexivity|].
  split; [exact Hevents|].
  apply Hsaved; [reflexivity | intros w; reflexivity].
Defined.

Lemma list_folders_in_drive_failure_witness :
  events_of (list_folders_in_drive "token"
               "https://graph.microsoft.com/v1.0/drives/drive/root/children"
               (world_answers 500 None))
  = [EvHttp sample_folders (reply 500 None)] /\
  value_of (list_folders_in_drive "token"
              "https://graph.microsoft.com/v1.0/drives/drive/root/children"
              (world_answers 500 None))
  = Return tt.
Proof.
  destruct (list_folders_in_drive_failure "token"
              "https://graph.microsoft.com/v1.0/drives/drive/root/children"
              (world_answers 500 None) sample_folders (reply 500 None))
    as (Hevents & _ & Hhandled & _).
  - left; reflexivity.
  - right. eexists. split; [reflexivity|]. left. cbn. lia.
  - split; [exact Hevents|]. apply Hhandled. intros e w; reflexivity.
Defined.

Lemma create_folder_no_link_witness :
  value_of (create_folder "token" "drive" "TestingAptify2"
              (world_answers 201 (Some (JObj []))))
  = Return JNull /\
  value_of (create_folder "token" "drive" "TestingAptify2"
              (world_answers 201 None))
  = Return JNull.
Proof.
  split.
  - refine (proj1
      (create_folder_no_link "token" "drive" "TestingAptify2"
         (world_answers 201 (Some (JObj []))) sample_create
         (mkResponse 201 (Some (JObj []))) _ _) _ _).
    + left; reflexivity.
    + right. eexists. split; reflexivity.
    + cbn; lia.
    + discriminate.
  - refine (proj1 (proj2
      (proj2
         (create_folder_no_link "token" "drive" "TestingAptify2"
            (world_answers 201 None) sample_create
            (mkResponse 201 None) _ _) _)) _).
    + left; reflexivity.
    + left; reflexivity.
    + right; reflexivity.
    + intros e w; reflexivity.
Defined.

Lemma upload_pdf_needs_extension_witness :
  upload_pdf 5 "token" "drive" "Test2" "README" "C:/out/README" world_upload_ok
  = Some (Raise ValueError, world_upload_ok, []).
Proof.
  apply (upload_pdf_needs_extension 5 "token" "drive" "Test2" "README"
           "C:/out/README" world_upload_ok).
  reflexivity.
Defined.

Lemma upload_pdf_probe_unreachable_witness :
  result_of (upload_pdf 1 "token" "drive" "Test2" "a.pdf" "C:/out/a.pdf"
               world_offline) = Some (Raise RequestException) /\
  trace_of (upload_pdf 1 "token" "drive" "Test2" "a.pdf" "C:/out/a.pdf"
              world_offline) = [EvHttp sample_probe TransportFailure].
Proof.
  apply (upload_pdf_probe_unreachable 0 "token" "drive" "Test2" "a.pdf"
           "C:/out/a.pdf" world_offline sample_probe);
    [left; reflexivity | reflexivity].
Defined.

Lemma upload_pdf_probe_unreadable_witness :
  result_of (upload_pdf 1 "token" "drive" "Test2" "a.pdf" "C:/out/a.pdf"
               (world_answers 200 None)) = Some (Raise JSONDecodeError).
Proof.
  refine (proj1
    (upload_pdf_probe_unreadable 0 "token" "drive" "Test2" "a.pdf"
       "C:/out/a.pdf" (world_answers 200 None) sample_probe
       (mkResponse 200 None) _ eq_refl eq_refl) eq_refl).
  left; reflexivity.
Defined.

Lemma upload_pdf_sends_file_content_witness :
  exists probe r content,
    trace_of (upload_pdf 1 "token" "drive" "Test2" "a.pdf" "C:/out/a.pdf"
                world_upload_ok)
    = [EvHttp probe (Responded r);
       EvRead "C:/out/a.pdf" (Some content);
       EvHttp sample_put
         (reply 201 (Some (JObj [("webUrl", JStr "https://sp/Test2/a.pdf")])))] /\
    req_method probe = GET /\
    status_code r <> 200 /\ status_code r <> 401 /\
    req_body sample_put = RawBody content /\
    req_headers sample_put = [("Authorization", "Bearer " ++ "token");
                              ("Content-Type", "application/pdf")] /\
    req_url sample_put = (req_url probe ++ ":/content")%string.
Proof.
  apply (upload_pdf_sends_file_content 0 "token" "drive" "Test2" "a.pdf"
           "C:/out/a.pdf" world_upload_ok sample_put
           (reply 201 (Some (JObj [("webUrl", JStr "https://sp/Test2/a.pdf")]))));
    [right; right; left; reflexivity | reflexivity].
Defined.

Lemma upload_pdf_reads_after_probe_witness :
  "C:/out/a.pdf"%string = "C:/out/a.pdf"%string /\
  exists probe r,
    hd_error (trace_of (upload_pdf 1 "token" "drive" "Test2" "a.pdf"
                          "C:/out/a.pdf" world_upload_ok))
    = Some (EvHttp probe (Responded r)) /\
    req_method probe = GET /\
    status_code r <> 200 /\ status_code r <> 401.
Proof.
  apply (upload_pdf_reads_after_probe 0 "token" "drive" "Test2" "a.pdf"
           "C:/out/a.pdf" world_upload_ok "C:/out/a.pdf" (Some "%PDF"%string)).
  right; left; reflexivity.
Defined.

Lemma upload_pdf_uploaded_witness :
  result_of (upload_pdf 1 "token" "drive" "Test2" "a.pdf" "C:/out/a.pdf"
               world_upload_ok)
  = Some (Return (JStr "https://sp/Test2/a.pdf", false)) /\
  exists v,
    result_of (upload_pdf 1 "token" "drive" "Test2" "a.pdf" "C:/out/a.pdf"
                 (mkConsole takes_messages world_upload_ok))
    = Some v /\
    v = Return (JNull, false).
Proof.
  split.
  - refine (proj1
      (upload_pdf_uploaded 0 "token" "drive" "Test2" "a.pdf" "C:/out/a.pdf"
         world_upload_ok sample_put
         (mkResponse 201 (Some (JObj [("webUrl", JStr "https://sp/Test2/a.pdf")])))
         [("webUrl", JStr "https://sp/Test2/a.pdf")]
         (JStr "https://sp/Test2/a.pdf") _ eq_refl _ eq_refl (or_introl eq_refl))
      _).
    + right; right; left; reflexivity.
    + cbn. lia.
    + intros w; reflexivity.
  - destruct (upload_pdf_uploaded 0 "token" "drive" "Test2" "a.pdf" "C:/out/a.pdf"
                (mkConsole takes_messages world_upload_ok) sample_put
                (mkResponse 201
                   (Some (JObj [("webUrl", JStr "https://sp/Test2/a.pdf")])))
                [("webUrl", JStr "https://sp/Test2/a.pdf")]
                (JStr "https://sp/Test2/a.pdf"))
      as (_ & Hrefused & _).
    + right; right; left; reflexivity.
    + reflexivity.
    + cbn. lia.
    + reflexivity.
    + left; reflexivity.
    + destruct Hrefused as (v & Hresult & _ & Hhandled & _);
        [intros w; reflexivity|].
      exists v. split; [exact Hresult|]. apply Hhandled. intros e w; reflexivity.
Defined.

Lemma upload_pdf_upload_not_confirmed_witness :
  result_of (upload_pdf 1 "token" "drive" "Test2" "a.pdf" "C:/out/a.pdf"
               (world_upload_answers 201 None))
  = Some (Return (JNull, false)).
Proof.
  destruct (upload_pdf_upload_not_confirmed 0 "token" "drive" "Test2" "a.pdf"
              "C:/out/a.pdf" (world_upload_answers 201 None) sample_put
              (mkResponse 201 None))
    as (v & Hresult & _ & Hhandled & _).
  - right; right; left; reflexivity.
  - reflexivity.
  - cbn. lia.
  - right. reflexivity.
  - rewrite Hresult. f_equal. apply Hhandled. intros e w; reflexivity.
Defined.

Lemma upload_pdf_handler_unbound_witness :
  result_of (upload_pdf 1 "token" "drive" "Test2" "a.pdf" "C:/out/a.pdf"
               (mkScripted [reply 404 None; TransportFailure]
                  [("C:/out/a.pdf", "%PDF"%string)]))
  = Some (Raise UnboundLocalError).
Proof.
  apply (upload_pdf_handler_unbound 0 "token" "drive" "Test2" "a.pdf"
           "C:/out/a.pdf"
           (mkScripted [reply 404 None; TransportFailure]
              [("C:/out/a.pdf", "%PDF"%string)])
           (EvHttp sample_put TransportFailure)).
  - right; right; left; reflexivity.
  - right. eexists. split; reflexivity.
Defined.

Lemma upload_pdf_flag_means_401_witness :
  JNull = JNull /\
  exists pre rq r,
    trace_of (upload_pdf 1 "token" "drive" "Test2" "a.pdf" "C:/out/a.pdf"
                world_token_expired)
    = (pre ++ [EvHttp rq (Responded r)])%list /\
    status_code r = 401.
Proof.
  apply (upload_pdf_flag_means_401 0 "token" "drive" "Test2" "a.pdf"
           "C:/out/a.pdf" world_token_expired JNull).
  reflexivity.
Defined.

Lemma run_module_without_token_witness :
  exists rq2 o2,
    events_of (run_module (fun _ => EmptyString) "client" "secret" (Some "tenant")
                 (Some "drive")
                 (mkScripted [reply 400 None; reply 401 None] []))
    = [EvHttp sample_token (reply 400 None); EvHttp rq2 o2] /\
    req_method rq2 = POST /\
    req_headers rq2 = [("Authorization", "Bearer None");
                       ("Content-Type", "application/json")].
Proof.
  apply (run_module_without_token (fun _ => EmptyString) "client" "secret"
           (Some "tenant"%string) (Some "drive"%string)
           (mkScripted [reply 400 None; reply 401 None] [])
           sample_token (reply 400 None)).
  - reflexivity.
  - right. eexists. split; [reflexivity|]. cbn. lia.
  - intros e w; reflexivity.
Defined.
